(** * Auto attendance system: recognition, dataset building and ledger

    A shallow embedding of the recognition-and-ledger core of the
    attendance system:

    - [FaceRecognitionThread.run] (face1.py), the per-face matching step;
    - [LoadStudentsThread.run] (face1.py), label parsing and averaging;
    - [AttendanceManager.save_attendance] (attendance_manager.py);
    - [AttendanceSystem.update_attendance_record] and
      [AttendanceSystem.clear_attendance] (face1.py);
    - [AttendanceSystem.save_encoding_set] (face1.py), as a sequence of
      file-system steps.

    Conventions.  Python floats are modelled by exact rationals [Q], except
    in [LoadStudents64], which keeps the binary64 arithmetic of [np.mean]:
    the rounding of a sum depends on the order of its terms.  A
    Python exception is a value of [exn]; a call that may raise returns
    [exn + A].  A naive [datetime] is the number of microseconds since the
    start of the calendar, a ["%Y-%m-%d %H:%M:%S"] string the number of
    whole seconds, and a ["%Y-%m-%d"] string the number of whole days. *)

From Stdlib Require Import QArith Ascii String Floats.
From stdpp Require Import gmap strings list fin_maps sorting.

Local Open Scope Q_scope.
Local Open Scope Z_scope.
Local Open Scope string_scope.
Local Open Scope list_scope.
Local Open Scope stdpp_scope.

(** ** Python runtime: exceptions *)

Inductive exn : Set :=
| ZeroDivisionError
| ValueError
| IndexError.

Definition raises (A : Type) : Type := (exn + A)%type.

Definition ret {A : Type} (a : A) : raises A := inr a.
Definition raise {A : Type} (e : exn) : raises A := inl e.

Definition bind {A B : Type} (m : raises A) (k : A → raises B) : raises B :=
  match m with
  | inl e => inl e
  | inr a => k a
  end.

Notation "'do' x <- m ; k" := (bind m (λ x, k))
  (at level 10, x name, m at level 100, k at level 200).

(** Strict comparison of two floats, [a < b]. *)
Definition Qltb (a b : Q) : bool := negb (Qle_bool b a).

(** Indexing a Python list with a non-negative index. *)
Definition getitem {A : Type} (l : list A) (i : nat) : raises A :=
  match l !! i with
  | Some a => ret a
  | None => raise IndexError
  end.

(** ** Python runtime: dictionaries

    A [dict] with string keys keeps its keys in insertion order; assigning
    to an existing key keeps the key's position. *)

Module PyDict.

Definition dict (V : Type) : Type := list (string * V).

Fixpoint get {V : Type} (d : dict V) (k : string) : option V :=
  match d with
  | [] => None
  | (k', v) :: rest => if String.eqb k k' then Some v else get rest k
  end.

Fixpoint set {V : Type} (d : dict V) (k : string) (v : V) : dict V :=
  match d with
  | [] => [(k, v)]
  | (k', v') :: rest =>
      if String.eqb k k' then (k', v) :: rest else (k', v') :: set rest k v
  end.

Definition contains {V : Type} (d : dict V) (k : string) : bool :=
  match get d k with Some _ => true | None => false end.

Definition keys {V : Type} (d : dict V) : list string := map fst d.

End PyDict.

(** ** Matcher: the body of the [for face_encoding in face_encodings] loop *)

Module Matcher.

Definition encoding : Type := list Q.

Section WithDistance.

(** [face_recognition.face_distance] is a function of the external
    [face_recognition] package: one distance per known encoding.  The
    per-pair metric is a parameter of the development. *)
Variable distance : encoding → encoding → Q.

Definition face_distance (known : list encoding) (face : encoding) : list Q :=
  map (λ e, distance e face) known.

(** [np.argmin]: index of the first occurrence of the minimum. *)
Fixpoint argmin_from (best_index : nat) (best : Q) (i : nat) (ds : list Q) : nat :=
  match ds with
  | [] => best_index
  | d :: rest =>
      if Qltb d best then argmin_from i d (S i) rest
      else argmin_from best_index best (S i) rest
  end.

Definition argmin (ds : list Q) : raises nat :=
  match ds with
  | [] => raise ValueError
  | d :: rest => ret (argmin_from 0%nat d 1%nat rest)
  end.

(** One iteration of the loop over the faces of a frame: the name that is
    appended to [recognized_names], and whether [update_attendance] was
    emitted for it. *)
Definition recognize (known_face_encodings : list encoding)
    (known_face_names : list string) (threshold : Q)
    (face_encoding : encoding) : raises (string * bool) :=
  if (0 <? length known_face_encodings)%nat then
    let face_distances := face_distance known_face_encodings face_encoding in
    do best_match_index <- argmin face_distances;
    do best <- getitem face_distances best_match_index;
    if Qltb best threshold then
      do name <- getitem known_face_names best_match_index;
      ret (name, true)
    else ret ("Unknown", false)
  else ret ("Unknown", false).

(** [i] is the first index of a minimum [d] of [ds]. *)
Definition first_min (ds : list Q) (i : nat) (d : Q) : Prop :=
  ds !! i = Some d ∧
  (∀ j dj, ds !! j = Some dj → (d <= dj)%Q) ∧
  (∀ j dj, (j < i)%nat → ds !! j = Some dj → (d < dj)%Q).

(** The loop [for face_encoding in face_encodings] of one frame.  The
    first component lists the names passed to [update_attendance.emit], in
    order; signals emitted before a later face raises stay emitted, while
    the frame itself is then dropped by the [except] clause.  The second
    component is [recognized_names]. *)
Fixpoint process_faces (known_face_encodings : list encoding)
    (known_face_names : list string) (threshold : Q)
    (face_encodings : list encoding) (recognized_names emitted : list string)
    : list string * raises (list string) :=
  match face_encodings with
  | [] => (emitted, ret recognized_names)
  | face_encoding :: rest =>
      match recognize known_face_encodings known_face_names threshold
              face_encoding with
      | inl e => (emitted, raise e)
      | inr (name, signal) =>
          process_faces known_face_encodings known_face_names threshold rest
            (recognized_names ++ [name])
            (if signal then emitted ++ [name] else emitted)
      end
  end.

End WithDistance.

(** A concrete metric for closed examples: the Euclidean norm of the
    difference, with a square root that is exact on squares of rationals
    in lowest terms. *)
Definition sqrt_exact (q : Q) : Q := Z.sqrt (Qnum q) # Pos.sqrt (Qden q).

Fixpoint sum_sq_diff (a b : encoding) : Q :=
  match a, b with
  | x :: a', y :: b' => ((x - y) * (x - y) + sum_sq_diff a' b')%Q
  | _, _ => 0%Q
  end.

Definition euclidean (a b : encoding) : Q := sqrt_exact (Qred (sum_sq_diff a b)).

End Matcher.

(** ** EncodingStore: [LoadStudentsThread.run] *)

Module LoadStudents.

Definition encoding : Type := list Q.

(** [str.endswith]. *)
Definition endswith (s suffix : string) : bool :=
  let n := String.length s in
  let k := String.length suffix in
  (k <=? n)%nat && String.eqb (String.substring (n - k) k s) suffix.

(** [str.split(sep)] for a one-character separator: never empty. *)
Fixpoint split (sep : ascii) (s : string) : list string :=
  match s with
  | EmptyString => [EmptyString]
  | String c rest =>
      if Ascii.eqb c sep then EmptyString :: split sep rest
      else match split sep rest with
           | piece :: pieces => String c piece :: pieces
           | [] => [String c EmptyString]
           end
  end.

(** [name = "_".join(filename.split("_")[:-1])]. *)
Definition student_name (filename : string) : string :=
  String.concat "_" (removelast (split "_"%char filename)).

(** [sep] does not occur in [s]. *)
Definition no_sep (sep : ascii) (s : string) : Prop := split sep s = [s].

Definition is_image (filename : string) : bool :=
  endswith filename ".jpg" || endswith filename ".png".

(** A directory entry: the file name and what the image yields, [Some e]
    when the image is readable and [e] is the encoding of its first face,
    [None] when it cannot be read, shows no face, or processing raises
    (the [except] clause only reports it). *)
Definition entry : Type := (string * option encoding)%type.

(** [students_encodings[name].append(e)] or [students_encodings[name] = [e]]. *)
Definition add_encoding (students_encodings : PyDict.dict (list encoding))
    (name : string) (e : encoding) : PyDict.dict (list encoding) :=
  match PyDict.get students_encodings name with
  | Some encodings => PyDict.set students_encodings name (encodings ++ [e])
  | None => PyDict.set students_encodings name [e]
  end.

(** One iteration of [for filename in os.listdir(self.directory)], on the
    pair [(students_encodings, loaded_count)]. *)
Definition load_file (st : PyDict.dict (list encoding) * nat) (f : entry)
    : PyDict.dict (list encoding) * nat :=
  let '(filename, image) := f in
  if is_image filename then
    let name := student_name filename in
    match image with
    | Some e => (add_encoding st.1 name e, S st.2)
    | None => st
    end
  else st.

(** The encodings a file contributes to a label, and those a whole listing
    contributes, in the order of the listing. *)
Definition contribution (name : string) (f : entry) : list encoding :=
  if is_image f.1 && String.eqb (student_name f.1) name then
    match f.2 with Some e => [e] | None => [] end
  else [].

Definition encodings_of (name : string) (directory : list entry) : list encoding :=
  flat_map (contribution name) directory.

Definition load_files (directory : list entry) : PyDict.dict (list encoding) * nat :=
  fold_left load_file directory ([], 0%nat).

Definition vadd (a b : encoding) : encoding := zip_with Qplus a b.

(** [np.mean(encodings, axis=0)] in exact arithmetic
    ([LoadStudents64.np_mean] is the binary64 one): the rows are summed and
    the sum is divided by their number; rows of different lengths make numpy
    raise.  On an
    empty list numpy yields [nan], which has no rational counterpart: it is
    modelled as an error, and no list of [students_encodings] is empty. *)
Definition np_mean (encodings : list encoding) : raises encoding :=
  match encodings with
  | [] => raise ValueError
  | e :: rest =>
      if forallb (λ x, (length x =? length e)%nat) rest then
        ret (map (λ x, (x / inject_Z (Z.of_nat (length encodings)))%Q)
               (fold_left vadd rest e))
      else raise ValueError
  end.

(** [for name, encodings in students_encodings.items()]: both output lists
    grow by one element per label. *)
Fixpoint average (items : list (string * list encoding))
    (known_face_encodings : list encoding) (known_face_names : list string)
    : raises (list encoding * list string) :=
  match items with
  | [] => ret (known_face_encodings, known_face_names)
  | (name, encodings) :: rest =>
      do m <- np_mean encodings;
      average rest (known_face_encodings ++ [m]) (known_face_names ++ [name])
  end.

Record dataset : Type := {
  known_face_encodings : list encoding;
  known_face_names : list string;
  loaded_count : nat
}.

(** [LoadStudentsThread.run]: the arguments of the [finished] signal. *)
Definition run (directory : list entry) : raises dataset :=
  let '(students_encodings, count) := load_files directory in
  do r <- average students_encodings [] [];
  ret {| known_face_encodings := r.1; known_face_names := r.2;
         loaded_count := count |}.

(** The vector stored for a label: the encoding at the position of the
    label's first occurrence in the list of names. *)
Fixpoint lookup_label (names : list string) (encodings : list encoding)
    (name : string) : option encoding :=
  match names, encodings with
  | n :: names', e :: encodings' =>
      if String.eqb name n then Some e else lookup_label names' encodings' name
  | _, _ => None
  end.

Definition stored_vector (d : dataset) (name : string) : option encoding :=
  lookup_label (known_face_names d) (known_face_encodings d) name.

(** Every encoding of the listing has [n] components. *)
Definition uniform_dimension (n : nat) (directory : list entry) : Prop :=
  Forall (λ f : entry, ∀ e, f.2 = Some e → length e = n) directory.

(** Two vectors with equal components (rational equality). *)
Definition vec_eq (a b : encoding) : Prop := Forall2 Qeq a b.

(** [len(set(names))], the [student_count] that [save_encoding_set] writes
    to [info.json]. *)
Definition student_count (names : list string) : nat :=
  size (list_to_set names : gset string).

(** A directory entry that adds an encoding to the dataset. *)
Definition loaded (f : entry) : bool :=
  is_image f.1 && match f.2 with Some _ => true | None => false end.

End LoadStudents.

(** ** EncodingStore in binary64: [LoadStudentsThread.run] with numpy's arithmetic

    The encodings are arrays of binary64 floats, and [np.mean] adds the rows
    one after the other and divides by their number, all in binary64.  This
    module is [LoadStudents] over that arithmetic. *)

Module LoadStudents64.

Definition encoding : Type := list float.

Definition entry : Type := (string * option encoding)%type.

Definition add_encoding (students_encodings : PyDict.dict (list encoding))
    (name : string) (e : encoding) : PyDict.dict (list encoding) :=
  match PyDict.get students_encodings name with
  | Some encodings => PyDict.set students_encodings name (encodings ++ [e])
  | None => PyDict.set students_encodings name [e]
  end.

Definition load_file (st : PyDict.dict (list encoding) * nat) (f : entry)
    : PyDict.dict (list encoding) * nat :=
  let '(filename, image) := f in
  if LoadStudents.is_image filename then
    let name := LoadStudents.student_name filename in
    match image with
    | Some e => (add_encoding st.1 name e, S st.2)
    | None => st
    end
  else st.

Definition contribution (name : string) (f : entry) : list encoding :=
  if LoadStudents.is_image f.1
     && String.eqb (LoadStudents.student_name f.1) name then
    match f.2 with Some e => [e] | None => [] end
  else [].

Definition encodings_of (name : string) (directory : list entry) : list encoding :=
  flat_map (contribution name) directory.

Definition load_files (directory : list entry) : PyDict.dict (list encoding) * nat :=
  fold_left load_file directory ([], 0%nat).

Definition vadd (a b : encoding) : encoding := zip_with PrimFloat.add a b.

(** The number of rows as a float. *)
Definition count (n : nat) : float := PrimFloat.of_uint63 (Uint63.of_Z (Z.of_nat n)).

(** [np.mean(encodings, axis=0)]: the rows are added in their order, from
    the first, and the sum is divided by their number; rows of different
    lengths make numpy raise.  The empty list is an error here as in
    [LoadStudents.np_mean]. *)
Definition np_mean (encodings : list encoding) : raises encoding :=
  match encodings with
  | [] => raise ValueError
  | e :: rest =>
      if forallb (λ x, (length x =? length e)%nat) rest then
        ret (map (λ x, PrimFloat.div x (count (length encodings)))
               (fold_left vadd rest e))
      else raise ValueError
  end.

Fixpoint average (items : list (string * list encoding))
    (known_face_encodings : list encoding) (known_face_names : list string)
    : raises (list encoding * list string) :=
  match items with
  | [] => ret (known_face_encodings, known_face_names)
  | (name, encodings) :: rest =>
      do m <- np_mean encodings;
      average rest (known_face_encodings ++ [m]) (known_face_names ++ [name])
  end.

Record dataset : Type := {
  known_face_encodings : list encoding;
  known_face_names : list string;
  loaded_count : nat
}.

Definition run (directory : list entry) : raises dataset :=
  let '(students_encodings, n) := load_files directory in
  do r <- average students_encodings [] [];
  ret {| known_face_encodings := r.1; known_face_names := r.2;
         loaded_count := n |}.

Fixpoint lookup_label (names : list string) (encodings : list encoding)
    (name : string) : option encoding :=
  match names, encodings with
  | n :: names', e :: encodings' =>
      if String.eqb name n then Some e else lookup_label names' encodings' name
  | _, _ => None
  end.

Definition stored_vector (d : dataset) (name : string) : option encoding :=
  lookup_label (known_face_names d) (known_face_encodings d) name.

Definition uniform_dimension (n : nat) (directory : list entry) : Prop :=
  Forall (λ f : entry, ∀ e, f.2 = Some e → length e = n) directory.

End LoadStudents64.

(** ** Dates and times *)

Module Datetime.

Definition microseconds_per_second : Z := 1000000.
Definition seconds_per_day : Z := 86400.

(** [datetime.strptime(s, "%Y-%m-%d %H:%M:%S")]: whole seconds. *)
Definition strptime (timestamp : Z) : Z := timestamp * microseconds_per_second.

(** [dt.strftime('%Y-%m-%d')]: the calendar day of a datetime. *)
Definition strftime_date (dt : Z) : Z :=
  dt / (seconds_per_day * microseconds_per_second).

(** [(a - b).seconds]: a [timedelta] is normalised to days, seconds in
    [0, 86400) and microseconds in [0, 1000000); [.seconds] is the middle
    component. *)
Definition timedelta_seconds (a b : Z) : Z :=
  ((a - b) / microseconds_per_second) mod seconds_per_day.

(** [(a - b).total_seconds()], rounded down to whole seconds. *)
Definition elapsed_seconds (a b : Z) : Z := (a - b) / microseconds_per_second.

Definition microseconds_per_day : Z := seconds_per_day * microseconds_per_second.

(** [datetime.strptime(s, '%Y-%m-%d')]: midnight of the day. *)
Definition strptime_date (day : Z) : Z := day * microseconds_per_day.

(** [(a - b).days]. *)
Definition timedelta_days (a b : Z) : Z := (a - b) / microseconds_per_day.

(** [dt - timedelta(days=n)]. *)
Definition minus_days (dt n : Z) : Z := dt - n * microseconds_per_day.

End Datetime.

(** ** AttendanceLedger, persistence side: [AttendanceManager] *)

Module AttendanceManager.

Record attendance_data : Type := {
  date : Z;
  present_students : list string;
  all_students : list string;
  absent_students : list string;
  total_students : nat;
  present_count : nat;
  attendance_percentage : Q
}.

(** The directory [attendance_records]: the record of each date that has a
    file, and the dates of the files opened for writing so far, latest
    first. *)
Record store : Type := {
  files : gmap Z attendance_data;
  writes : list Z
}.

(** Python's [/] on two integers. *)
Definition truediv (a b : nat) : raises Q :=
  if (b =? 0)%nat then raise ZeroDivisionError
  else ret (inject_Z (Z.of_nat a) / inject_Z (Z.of_nat b))%Q.

(** Truth value of a list. *)
Definition truthy {A : Type} (l : list A) : bool :=
  match l with [] => false | _ :: _ => true end.

(** The dictionary [attendance_data] built by [save_attendance]. *)
Definition build_attendance_data (date_str : Z)
    (present all : list string) : raises attendance_data :=
  do percentage <-
    (if truthy all then
       do q <- truediv (length present) (length all);
       ret (q * 100)%Q
     else ret 0%Q);
  ret {| date := date_str;
         present_students := present;
         all_students := all;
         absent_students :=
           elements ((list_to_set all : gset string) ∖ list_to_set present);
         total_students := length all;
         present_count := length present;
         attendance_percentage := percentage |}.

Definition save_attendance (self : store) (dt : Z)
    (present all : list string) : raises store :=
  let date_str := Datetime.strftime_date dt in
  do data <- build_attendance_data date_str present all;
  ret {| files := <[date_str := data]> (files self);
         writes := date_str :: writes self |}.

Definition get_attendance (self : store) (dt : Z) : option attendance_data :=
  files self !! Datetime.strftime_date dt.

Definition clear_attendance (self : store) (dt : Z) : store * bool :=
  let date_str := Datetime.strftime_date dt in
  match files self !! date_str with
  | Some _ => ({| files := delete date_str (files self);
                  writes := writes self |}, true)
  | None => (self, false)
  end.

(** [os.listdir(self.attendance_dir)], restricted to the attendance files:
    the date in the name of each file with the record the file holds.  The
    order of the listing is the file system's. *)
Definition listdir (self : store) : list (Z * attendance_data) :=
  map_to_list (files self).

(** A stable sort by an integer key, as [sorted] and [list.sort] are. *)
Fixpoint insert_by {A : Type} (key : A → Z) (x : A) (l : list A) : list A :=
  match l with
  | [] => [x]
  | y :: rest =>
      if (key x <=? key y)%Z then x :: y :: rest
      else y :: insert_by key x rest
  end.

Definition sort_by {A : Type} (key : A → Z) (l : list A) : list A :=
  foldr (insert_by key) [] l.

Record student_stats : Type := {
  total_days : nat;
  days_present : nat;
  days_absent : Z;
  stats_attendance_percentage : Q;
  attendance_history : list (Z * bool)
}.

(** [(not start_date or date >= start_date) and
     (not end_date or date <= end_date)], the bounds being dates. *)
Definition in_range (start_date end_date : option Z) (d : Z) : bool :=
  match start_date with None => true | Some s => (s <=? d)%Z end
  && match end_date with None => true | Some e => (d <=? e)%Z end.

(** The rows collected by the loop of [get_student_attendance_stats]. *)
Definition student_rows (self : store) (student_name : string)
    (start_date end_date : option Z) : list (Z * bool) :=
  omap (λ f : Z * attendance_data,
          if in_range start_date end_date (date f.2) then
            Some (date f.2, bool_decide (student_name ∈ present_students f.2))
          else None)
       (listdir self).

Definition get_student_attendance_stats (self : store) (student_name : string)
    (start_date end_date : option Z) : option student_stats :=
  let df := student_rows self student_name start_date end_date in
  if truthy df then
    let present_sum := length (filter (λ row : Z * bool, row.2 = true) df) in
    Some {| total_days := length df;
            days_present := present_sum;
            days_absent := Z.of_nat (length df) - Z.of_nat present_sum;
            stats_attendance_percentage :=
              (inject_Z (Z.of_nat present_sum)
               / inject_Z (Z.of_nat (length df)) * 100)%Q;
            attendance_history := df |}
  else None.

(** [period == name], for a [period] that may be [None]. *)
Definition period_is (period : option string) (name : string) : bool :=
  match period with Some p => String.eqb p name | None => false end.

(** The three [continue] tests of the trend loops, for the period names
    [week], [month] and [semester] that the function compares with. *)
Definition skipped (week month semester : string) (period : option string)
    (days_diff : Z) : bool :=
  (period_is period week && (7 <? days_diff)%Z)
  || (period_is period month && (30 <? days_diff)%Z)
  || (period_is period semester && (180 <? days_diff)%Z).

(** The list [data] of [get_attendance_trend] and
    [get_daily_attendance_counts] after [data.sort]: the files are visited
    in the order of their names, [clock] gives the reading of
    [datetime.now()] made for each file, and the rows kept are sorted by
    date. *)
Definition period_data (week month semester : string) (self : store)
    (period : option string) (clock : Z → Z) : list (Z * nat) :=
  sort_by fst
    (omap (λ f : Z * attendance_data,
             let days_diff :=
               Datetime.timedelta_days (clock f.1)
                 (Datetime.strptime_date (date f.2)) in
             if skipped week month semester period days_diff then None
             else Some (date f.2, present_count f.2))
          (sort_by fst (listdir self))).

Definition get_attendance_trend (self : store) (period : option string)
    (clock : Z → Z) : option (list Z * list nat) :=
  let data := period_data "week" "month" "semester" self period clock in
  if truthy data then Some (map fst data, map snd data) else None.

Definition get_daily_attendance_counts (self : store) (period : option string)
    (clock : Z → Z) : list Z * list nat :=
  let data := period_data "weekly" "monthly" "semester" self period clock in
  if truthy data then (map fst data, map snd data) else ([], []).

End AttendanceManager.

(** ** AttendanceLedger, in-memory side: [AttendanceSystem] *)

Module AttendanceSystem.

Record app : Type := {
  present_students : PyDict.dict Z;
  known_face_names : list string;
  duplicate_prevention : bool;
  attendance_manager : AttendanceManager.store
}.

(** The state set up by [__init__] and the settings tab, over the
    attendance files already on disk. *)
Definition init (disk : gmap Z AttendanceManager.attendance_data) : app :=
  {| present_students := [];
     known_face_names := [];
     duplicate_prevention := true;
     attendance_manager :=
       {| AttendanceManager.files := disk; AttendanceManager.writes := [] |} |}.

(** The condition of [update_attendance_record]; [or] evaluates its right
    operand only when the left one is false. *)
Definition should_record (self : app) (name : string) (now : Z) : bool :=
  negb (duplicate_prevention self)
  || match PyDict.get (present_students self) name with
     | None => true
     | Some stored =>
         (30 <? Datetime.timedelta_seconds now (Datetime.strptime stored))%Z
     end.

(** [update_attendance_record(name, timestamp)]; [now] and [now_save] are
    the two readings of [datetime.now()], in the condition and in the call
    of [save_attendance]. *)
Definition update_attendance_record (self : app) (name : string)
    (timestamp : Z) (now now_save : Z) : raises app :=
  if should_record self name now then
    let present := PyDict.set (present_students self) name timestamp in
    do manager <-
      AttendanceManager.save_attendance (attendance_manager self) now_save
        (PyDict.keys present) (known_face_names self);
    ret {| present_students := present;
           known_face_names := known_face_names self;
           duplicate_prevention := duplicate_prevention self;
           attendance_manager := manager |}
  else ret self.

(** [clear_attendance], once the user has confirmed. *)
Definition clear_attendance (self : app) (now : Z) : app :=
  {| present_students := [];
     known_face_names := known_face_names self;
     duplicate_prevention := duplicate_prevention self;
     attendance_manager :=
       (AttendanceManager.clear_attendance (attendance_manager self) now).1 |}.

(** What reaches the ledger: an [update_attendance] signal, the user
    ticking the duplicate-prevention box, a dataset being loaded (or the
    loaded one deleted), and the clear button. *)
Inductive event : Type :=
| Recognized (name : string) (timestamp : Z) (now now_save : Z)
| SetDuplicatePrevention (checked : bool)
| LoadDataset (names : list string)
| ClearAttendance (now : Z).

Definition handle (self : app) (ev : event) : raises app :=
  match ev with
  | Recognized name timestamp now now_save =>
      update_attendance_record self name timestamp now now_save
  | SetDuplicatePrevention checked =>
      ret {| present_students := present_students self;
             known_face_names := known_face_names self;
             duplicate_prevention := checked;
             attendance_manager := attendance_manager self |}
  | LoadDataset names =>
      ret {| present_students := present_students self;
             known_face_names := names;
             duplicate_prevention := duplicate_prevention self;
             attendance_manager := attendance_manager self |}
  | ClearAttendance now => ret (clear_attendance self now)
  end.

Fixpoint run (self : app) (events : list event) : raises app :=
  match events with
  | [] => ret self
  | ev :: rest => do self' <- handle self ev; run self' rest
  end.

(** Every persisted record lists each present student once. *)
Definition records_unique (disk : gmap Z AttendanceManager.attendance_data) : Prop :=
  ∀ d r, disk !! d = Some r → NoDup (AttendanceManager.present_students r).

(** The invariant of the ledger: the dictionary has one entry per key, and
    so has every record on disk. *)
Definition ledger_ok (self : app) : Prop :=
  NoDup (PyDict.keys (present_students self))
  ∧ records_unique (AttendanceManager.files (attendance_manager self)).

Definition is_clear (ev : event) : bool :=
  match ev with ClearAttendance _ => true | _ => false end.

(** The three numbers shown by [update_statistics]. *)
Record statistics : Type := {
  total_students : Z;
  present_count : Z;
  absent_count : Z
}.

Definition update_statistics (self : app) : statistics :=
  let total :=
    if AttendanceManager.truthy (known_face_names self) then
      Z.of_nat (size (list_to_set (known_face_names self) : gset string))
    else 0 in
  let present := Z.of_nat (length (present_students self)) in
  {| total_students := total;
     present_count := present;
     absent_count := total - present |}.

End AttendanceSystem.

(** ** Persistence as file-system steps: [save_encoding_set], [save_attendance] *)

Module Persistence.

(** The files of the data directory, by path, with the bytes they hold. *)
Abbreviation filesystem := (gmap string string).

(** What a save does to the file system, one call at a time:
    [open(path, 'w')] (or ['wb']) creates the file or truncates it, and
    each write of the serialiser appends a chunk to it. *)
Inductive op : Type :=
| Open_w (path : string)
| Write (path : string) (chunk : string).

Definition apply (fs : filesystem) (o : op) : filesystem :=
  match o with
  | Open_w path => <[path := ""]> fs
  | Write path chunk =>
      match fs !! path with
      | Some written => <[path := String.append written chunk]> fs
      | None => fs
      end
  end.

Definition run_ops (fs : filesystem) (ops : list op) : filesystem :=
  fold_left apply ops fs.

(** [os.path.join(a, b)] for a relative [b]. *)
Definition path_join (a b : string) : string :=
  if String.eqb a "" then b
  else if LoadStudents.endswith a "/" then String.append a b
  else String.append a (String.append "/" b).

(** [with open(path, 'w') as f: dump(obj, f)], where the serialiser emits
    [chunks]. *)
Definition dump (path : string) (chunks : list string) : list op :=
  Open_w path :: map (Write path) chunks.

Definition encoding_file (dataset_path : string) : string :=
  path_join dataset_path "encodings.pkl".

Definition info_file (dataset_path : string) : string :=
  path_join dataset_path "info.json".

(** The steps of [save_encoding_set]: the pickled gallery, then the JSON
    metadata.  No other file is touched and nothing is renamed. *)
Definition save_encoding_set_ops (dataset_path : string)
    (pickled info_json : list string) : list op :=
  dump (encoding_file dataset_path) pickled
  ++ dump (info_file dataset_path) info_json.

(** The steps of [save_attendance] on the attendance file. *)
Definition save_attendance_ops (attendance_file : string)
    (json : list string) : list op :=
  dump attendance_file json.

Definition save_encoding_set (fs : filesystem) (dataset_path : string)
    (pickled info_json : list string) : filesystem :=
  run_ops fs (save_encoding_set_ops dataset_path pickled info_json).

(** A save that stops after [n] steps: step [n] raised (the [except]
    clause of [save_encoding_set] shows a dialog and removes nothing) or
    the process went away. *)
Definition save_encoding_set_interrupted (n : nat) (fs : filesystem)
    (dataset_path : string) (pickled info_json : list string) : filesystem :=
  run_ops fs (take n (save_encoding_set_ops dataset_path pickled info_json)).

(** What [load_selected_encoding_set] finds in the gallery file. *)
Definition load (fs : filesystem) (dataset_path : string) : option string :=
  fs !! encoding_file dataset_path.

(** The bytes of a file written in [chunks]. *)
Definition contents (chunks : list string) : string :=
  fold_right String.append "" chunks.

Definition op_path (o : op) : string :=
  match o with Open_w path => path | Write path _ => path end.

End Persistence.

(** ** Analytics window: [AnalyticsWindow.update_analytics], [on_date_selected] *)

Module AnalyticsUI.

(** The statistics cards: total, present, absent and percentage, from the
    record of the selected date. *)
Definition stat_cards (stats : AttendanceManager.attendance_data)
    : Z * Z * Z * Q :=
  let total := Z.of_nat (AttendanceManager.total_students stats) in
  let present := Z.of_nat (AttendanceManager.present_count stats) in
  let absent := total - present in
  let percentage :=
    if (0 <? total)%Z then (inject_Z present / inject_Z total * 100)%Q
    else 0%Q in
  (total, present, absent, percentage).

(** The absent count shown by [on_date_selected]. *)
Definition absent_shown (attendance : AttendanceManager.attendance_data) : Z :=
  Z.of_nat (length (AttendanceManager.absent_students attendance)).

(** The bounds passed to [get_student_attendance_stats]: [start_date] and
    [end_date] formatted as dates. *)
Definition student_range (period : string) (now : Z) : option Z * option Z :=
  let end_date := now in
  let start_date :=
    if String.eqb period "Weekly" then Some (Datetime.minus_days end_date 7)
    else if String.eqb period "Monthly" then Some (Datetime.minus_days end_date 30)
    else if String.eqb period "Semester" then Some (Datetime.minus_days end_date 180)
    else None in
  (Datetime.strftime_date <$> start_date, Some (Datetime.strftime_date end_date)).

(** [period_map.get(period, "week")]. *)
Definition period_map (period : string) : string :=
  if String.eqb period "Weekly" then "week"
  else if String.eqb period "Monthly" then "month"
  else if String.eqb period "Semester" then "semester"
  else "week".

End AnalyticsUI.

(** ** Email settings: [AttendanceSystem.save_email_settings] *)

Module EmailSettings.

Definition config_file : string := "email_config.json".
Definition backup_file : string := "email_config.json.bak".

(** [if os.path.exists(src): shutil.copy2(src, dst)]. *)
Definition copy2_if_exists (fs : Persistence.filesystem) (src dst : string)
    : Persistence.filesystem :=
  match fs !! src with
  | Some bytes => <[dst := bytes]> fs
  | None => fs
  end.

(** [save_email_settings]: [valid] is the outcome of the two address
    checks, [json] the chunks of the serialised configuration.  With
    [failure = Some n] the writing of the new configuration raises after
    [n] of its steps and the [except] clause runs; with [None] the save
    runs to its end. *)
Definition save_email_settings (fs : Persistence.filesystem) (valid : bool)
    (json : list string) (failure : option nat) : Persistence.filesystem :=
  if valid then
    let backed_up := copy2_if_exists fs config_file backup_file in
    match failure with
    | None => Persistence.run_ops backed_up (Persistence.dump config_file json)
    | Some n =>
        let partial :=
          Persistence.run_ops backed_up
            (take n (Persistence.dump config_file json)) in
        copy2_if_exists partial backup_file config_file
    end
  else fs.

End EmailSettings.

(** * Properties *)

(** ** Matcher *)

Lemma Qltb_lt (a b : Q) : Qltb a b = true ↔ (a < b)%Q.
Proof.
  unfold Qltb. rewrite negb_true_iff, <- not_true_iff_false, Qle_bool_iff.
  split; [apply Qnot_le_lt | apply Qlt_not_le].
Qed.

Lemma Qltb_ge (a b : Q) : Qltb a b = false ↔ (b <= a)%Q.
Proof.
  unfold Qltb. rewrite negb_false_iff. apply Qle_bool_iff.
Qed.

(** [argmin_from] returns an index holding a minimum of the values seen,
    and every earlier index holds a strictly larger value. *)
Lemma argmin_from_spec (pre ds : list Q) (bi : nat) (b : Q) :
  Matcher.first_min pre bi b →
  ∃ i d, Matcher.argmin_from bi b (length pre) ds = i ∧
         Matcher.first_min (pre ++ ds) i d.
Proof.
  revert pre bi b. induction ds as [|x ds IH]; intros pre bi b Hm.
  - exists bi, b. rewrite app_nil_r. done.
  - simpl. destruct Hm as (Hb & Hle & Hlt).
    assert (Hlen : (bi < length pre)%nat) by (by eapply lookup_lt_Some).
    destruct (Qltb x b) eqn:E.
    + apply Qltb_lt in E.
      destruct (IH (pre ++ [x]) (length pre) x) as (i & d & Hi & Hfm).
      * split; [|split].
        -- by rewrite lookup_app_r, Nat.sub_diag by lia.
        -- intros j dj Hj. destruct (decide (j < length pre)%nat).
           ++ rewrite lookup_app_l in Hj by done.
              apply Qlt_le_weak. eapply Qlt_le_trans; [exact E|eauto].
           ++ rewrite lookup_app_r in Hj by lia.
              destruct (j - length pre)%nat; simpl in Hj; [|done].
              inversion Hj. apply Qle_refl.
        -- intros j dj Hj Hl. rewrite lookup_app_l in Hl by done.
           eapply Qlt_le_trans; [exact E|eauto].
      * rewrite length_app in Hi. simpl in Hi.
        replace (length pre + 1)%nat with (S (length pre)) in Hi by lia.
        exists i, d. split; [done|]. by rewrite <- app_assoc in Hfm.
    + apply Qltb_ge in E.
      destruct (IH (pre ++ [x]) bi b) as (i & d & Hi & Hfm).
      * split; [|split].
        -- by rewrite lookup_app_l.
        -- intros j dj Hj. destruct (decide (j < length pre)%nat).
           ++ rewrite lookup_app_l in Hj by done. eauto.
           ++ rewrite lookup_app_r in Hj by lia.
              destruct (j - length pre)%nat; simpl in Hj; [|done].
              by inversion Hj; subst.
        -- intros j dj Hj Hl. rewrite lookup_app_l in Hl by lia. eauto.
      * rewrite length_app in Hi. simpl in Hi.
        replace (length pre + 1)%nat with (S (length pre)) in Hi by lia.
        exists i, d. split; [done|]. by rewrite <- app_assoc in Hfm.
Qed.

Lemma first_min_unique (ds : list Q) (i i' : nat) (d d' : Q) :
  Matcher.first_min ds i d → Matcher.first_min ds i' d' → i = i' ∧ d = d'.
Proof.
  intros (Hi & Hle & Hlt) (Hi' & Hle' & Hlt').
  assert (i = i') as ->.
  { destruct (Nat.lt_trichotomy i i') as [H|[H|H]]; [|done|].
    - exfalso. apply (Qlt_not_le d' d); eauto.
    - exfalso. apply (Qlt_not_le d d'); eauto. }
  split; [done|congruence].
Qed.

Lemma argmin_first_min (ds : list Q) :
  ds ≠ [] → ∃ i d, Matcher.argmin ds = ret i ∧ Matcher.first_min ds i d.
Proof.
  destruct ds as [|x ds]; [done|]. intros _.
  destruct (argmin_from_spec [x] ds 0%nat x) as (i & d & Hi & Hfm).
  - split; [done|]. split.
    + intros [|j] dj Hj; simpl in Hj; [|done]. inversion Hj. apply Qle_refl.
    + intros j dj Hj. lia.
  - exists i, d. split; [|done]. simpl in *. by rewrite Hi.
Qed.

(** The result of [recognize] in terms of the first minimum of the
    distances. *)
Lemma recognize_first_min (distance : Matcher.encoding → Matcher.encoding → Q)
    (known : list Matcher.encoding) (names : list string) (threshold : Q)
    (face : Matcher.encoding) (i : nat) (d : Q) :
  Matcher.first_min (Matcher.face_distance distance known face) i d →
  Matcher.recognize distance known names threshold face =
    if Qltb d threshold then do name <- getitem names i; ret (name, true)
    else ret ("Unknown", false).
Proof.
  intros Hfm. unfold Matcher.recognize.
  assert (Hne : Matcher.face_distance distance known face ≠ []).
  { destruct Hfm as (Hi & _). intros E. by rewrite E in Hi. }
  assert (Hk : (0 <? length known)%nat = true).
  { apply Nat.ltb_lt. destruct known; [done|simpl; lia]. }
  rewrite Hk.
  destruct (argmin_first_min _ Hne) as (i' & d' & Ha & Hfm').
  destruct (first_min_unique _ _ _ _ _ Hfm Hfm') as [<- <-].
  rewrite Ha. simpl. unfold getitem at 1.
  destruct Hfm as (Hi & _). by rewrite Hi.
Qed.

Lemma face_distance_first_min (distance : Matcher.encoding → Matcher.encoding → Q)
    (known : list Matcher.encoding) (face : Matcher.encoding) :
  known ≠ [] →
  ∃ i d, Matcher.first_min (Matcher.face_distance distance known face) i d
         ∧ (i < length known)%nat.
Proof.
  intros Hne.
  destruct (argmin_first_min (Matcher.face_distance distance known face))
    as (i & d & _ & Hfm).
  - destruct known; [done|discriminate].
  - exists i, d. split; [done|]. destruct Hfm as (Hi & _).
    apply lookup_lt_Some in Hi. unfold Matcher.face_distance in Hi.
    by rewrite length_map in Hi.
Qed.

(** C1 (as stated): an entry whose distance equals the threshold is not
    accepted.  One known face "A" at distance exactly 1/2 from the query,
    threshold 1/2: the result is "Unknown" and no attendance signal is
    emitted. *)
Lemma recognize_boundary_rejected :
  Matcher.face_distance Matcher.euclidean [[0%Q]] [1 # 2]%Q = [1 # 2]%Q
  ∧ Matcher.recognize Matcher.euclidean [[0%Q]] ["A"] (1 # 2)%Q [1 # 2]%Q
    = ret ("Unknown", false).
Proof. split; reflexivity. Qed.

(** C1 (amended): the match is Unknown when the gallery is empty or the
    minimum distance is greater than or equal to the threshold; when the
    minimum distance is strictly below the threshold, the result is the
    label at the first index where the minimum is attained, and the
    attendance signal is emitted. *)
Theorem recognize_strict_threshold
    (distance : Matcher.encoding → Matcher.encoding → Q)
    (known : list Matcher.encoding) (names : list string) (threshold : Q)
    (face : Matcher.encoding) :
  length names = length known →
  (known = [] →
     Matcher.recognize distance known names threshold face
     = ret ("Unknown", false))
  ∧ (known ≠ [] →
     ∃ i d name,
       Matcher.first_min (Matcher.face_distance distance known face) i d
       ∧ names !! i = Some name
       ∧ ((threshold <= d)%Q →
            Matcher.recognize distance known names threshold face
            = ret ("Unknown", false))
       ∧ ((d < threshold)%Q →
            Matcher.recognize distance known names threshold face
            = ret (name, true))).
Proof.
  intros Hlen. split.
  - intros ->. reflexivity.
  - intros Hne.
    destruct (face_distance_first_min distance known face Hne)
      as (i & d & Hfm & Hi).
    destruct (lookup_lt_is_Some_2 names i) as [name Hname]; [lia|].
    exists i, d, name. split; [done|]. split; [done|].
    rewrite (recognize_first_min _ _ _ _ _ _ _ Hfm).
    split; intros H.
    + apply Qltb_ge in H. by rewrite H.
    + apply Qltb_lt in H. rewrite H. unfold getitem. by rewrite Hname.
Qed.

Lemma recognize_strict_threshold_witness :
  (([[0%Q]; [1%Q]] : list Matcher.encoding) = [] →
     Matcher.recognize Matcher.euclidean [[0%Q]; [1%Q]] ["A"; "B"] (1 # 2)%Q
       [3 # 4]%Q = ret ("Unknown", false))
  ∧ (([[0%Q]; [1%Q]] : list Matcher.encoding) ≠ [] →
     ∃ i d name,
       Matcher.first_min
         (Matcher.face_distance Matcher.euclidean [[0%Q]; [1%Q]] [3 # 4]%Q) i d
       ∧ ["A"; "B"] !! i = Some name
       ∧ (((1 # 2) <= d)%Q →
            Matcher.recognize Matcher.euclidean [[0%Q]; [1%Q]] ["A"; "B"]
              (1 # 2)%Q [3 # 4]%Q = ret ("Unknown", false))
       ∧ ((d < (1 # 2))%Q →
            Matcher.recognize Matcher.euclidean [[0%Q]; [1%Q]] ["A"; "B"]
              (1 # 2)%Q [3 # 4]%Q = ret (name, true))).
Proof.
  apply (recognize_strict_threshold Matcher.euclidean [[0%Q]; [1%Q]]
           ["A"; "B"] (1 # 2)%Q [3 # 4]%Q).
  reflexivity.
Defined.

(** C7 (as stated): of two equidistant entries the lexicographically
    smallest label is not the one selected.  "Bob" is stored before "Alice",
    both at distance 0 from the query: the result is "Bob". *)
Lemma recognize_tie_not_lexicographic :
  Matcher.face_distance Matcher.euclidean [[0%Q]; [0%Q]] [0%Q] = [0%Q; 0%Q]
  ∧ String.ltb "Alice" "Bob" = true
  ∧ Matcher.recognize Matcher.euclidean [[0%Q]; [0%Q]] ["Bob"; "Alice"]
      (1 # 2)%Q [0%Q] = ret ("Bob", true).
Proof. repeat split; reflexivity. Qed.

(** C7 (amended): when two entries are at equal minimal distance below the
    threshold, the match is the one that comes first in the gallery: the
    entry with the lowest index among those at minimal distance. *)
Theorem recognize_tie_first
    (distance : Matcher.encoding → Matcher.encoding → Q)
    (known : list Matcher.encoding) (names : list string) (threshold : Q)
    (face : Matcher.encoding) (i j : nat) (di dj : Q) (name : string) :
  let ds := Matcher.face_distance distance known face in
  (i < j)%nat →
  ds !! i = Some di →
  ds !! j = Some dj →
  (di == dj)%Q →
  (∀ k dk, ds !! k = Some dk → (di <= dk)%Q) →
  (∀ k dk, (k < i)%nat → ds !! k = Some dk → (di < dk)%Q) →
  (di < threshold)%Q →
  names !! i = Some name →
  Matcher.recognize distance known names threshold face = ret (name, true).
Proof.
  intros ds Hij Hi Hj Heq Hmin Hfirst Hlt Hname.
  rewrite (recognize_first_min distance known names threshold face i di).
  - apply Qltb_lt in Hlt. rewrite Hlt. unfold getitem. by rewrite Hname.
  - split; [done|]. split; done.
Qed.

Lemma recognize_tie_first_witness :
  Matcher.recognize Matcher.euclidean [[1%Q]; [0%Q]; [0%Q]]
    ["Carol"; "Bob"; "Alice"] (1 # 2)%Q [0%Q] = ret ("Bob", true).
Proof.
  apply (recognize_tie_first Matcher.euclidean [[1%Q]; [0%Q]; [0%Q]]
           ["Carol"; "Bob"; "Alice"] (1 # 2)%Q [0%Q] 1%nat 2%nat 0%Q 0%Q "Bob").
  - lia.
  - reflexivity.
  - reflexivity.
  - reflexivity.
  - intros [|[|[|k]]] dk Hk; vm_compute in Hk; inversion Hk; done.
  - intros [|[|k]] dk Hlt Hk; [|lia|lia].
    vm_compute in Hk. inversion Hk. done.
  - reflexivity.
  - reflexivity.
Defined.

(** ** Dictionaries *)

Lemma dict_get_set_eq {V : Type} (d : PyDict.dict V) (k : string) (v : V) :
  PyDict.get (PyDict.set d k v) k = Some v.
Proof.
  induction d as [|[k' v'] d IH]; simpl.
  - by rewrite String.eqb_refl.
  - destruct (String.eqb k k') eqn:E; simpl; rewrite E; [done|exact IH].
Qed.

Lemma dict_get_set_ne {V : Type} (d : PyDict.dict V) (k k' : string) (v : V) :
  k ≠ k' → PyDict.get (PyDict.set d k v) k' = PyDict.get d k'.
Proof.
  intros Hne. induction d as [|[k0 v0] d IH]; simpl.
  - destruct (String.eqb k' k) eqn:E; [|done].
    apply String.eqb_eq in E. congruence.
  - destruct (String.eqb k k0) eqn:E; simpl.
    + apply String.eqb_eq in E. subst k0.
      destruct (String.eqb k' k) eqn:E'; [|done].
      apply String.eqb_eq in E'. congruence.
    + by rewrite IH.
Qed.

Lemma dict_get_None {V : Type} (d : PyDict.dict V) (k : string) :
  PyDict.get d k = None ↔ k ∉ PyDict.keys d.
Proof.
  induction d as [|[k' v'] d IH]; simpl.
  - split; [intros _; apply not_elem_of_nil|done].
  - rewrite not_elem_of_cons. destruct (String.eqb k k') eqn:E.
    + apply String.eqb_eq in E. split; [done|]. intros [? _]. done.
    + apply String.eqb_neq in E. rewrite IH. tauto.
Qed.

Lemma dict_get_Some_elem {V : Type} (d : PyDict.dict V) (k : string) (v : V) :
  PyDict.get d k = Some v → (k, v) ∈ d.
Proof.
  induction d as [|[k' v'] d IH]; simpl; [done|].
  destruct (String.eqb k k') eqn:E.
  - apply String.eqb_eq in E. intros [= ->]. subst. apply elem_of_cons; by left.
  - intros H. apply elem_of_cons; right. auto.
Qed.

Lemma dict_elem_get {V : Type} (d : PyDict.dict V) (k : string) (v : V) :
  NoDup (PyDict.keys d) → (k, v) ∈ d → PyDict.get d k = Some v.
Proof.
  induction d as [|[k' v'] d IH]; simpl; intros Hnd Hin.
  - by apply not_elem_of_nil in Hin.
  - apply NoDup_cons in Hnd as [Hk' Hnd].
    apply elem_of_cons in Hin as [[= -> ->]|Hin].
    + by rewrite String.eqb_refl.
    + destruct (String.eqb k k') eqn:E; [|auto].
      apply String.eqb_eq in E. subst k'. exfalso. apply Hk'.
      unfold PyDict.keys. apply (list_elem_of_fmap_2 fst) in Hin. exact Hin.
Qed.

(** Assigning to a key leaves the keys as they are when the key is there, and
    adds the key at the end otherwise. *)
Lemma dict_keys_set {V : Type} (d : PyDict.dict V) (k : string) (v : V) :
  PyDict.keys (PyDict.set d k v) =
    if PyDict.contains d k then PyDict.keys d else PyDict.keys d ++ [k].
Proof.
  unfold PyDict.contains. induction d as [|[k' v'] d IH]; simpl; [done|].
  destruct (String.eqb k k') eqn:E; simpl; [done|].
  rewrite IH. by destruct (PyDict.get d k).
Qed.

Lemma dict_keys_set_NoDup {V : Type} (d : PyDict.dict V) (k : string) (v : V) :
  NoDup (PyDict.keys d) → NoDup (PyDict.keys (PyDict.set d k v)).
Proof.
  intros Hnd. rewrite dict_keys_set. unfold PyDict.contains.
  destruct (PyDict.get d k) eqn:E; [done|].
  apply dict_get_None in E. apply NoDup_app. split; [done|].
  split; [|apply NoDup_singleton].
  intros x Hx Hx'. apply list_elem_of_singleton in Hx'. by subst.
Qed.

(** ** Dataset building: labels *)

Lemma split_cons (sep : ascii) (s : string) :
  ∃ piece pieces, LoadStudents.split sep s = piece :: pieces.
Proof.
  destruct s as [|c s]; simpl; [by eexists _, _|].
  destruct (Ascii.eqb c sep); [by eexists _, _|].
  destruct (LoadStudents.split sep s); by eexists _, _.
Qed.

(** Joining the pieces of a split gives the string back. *)
Lemma concat_split (sep : ascii) (s : string) :
  String.concat (String sep EmptyString) (LoadStudents.split sep s) = s.
Proof.
  induction s as [|c s IH]; simpl; [done|].
  destruct (split_cons sep s) as (p & ps & Hs). rewrite Hs in *.
  destruct (Ascii.eqb c sep) eqn:E.
  - apply Ascii.eqb_eq in E. subst c. simpl in *. by rewrite IH.
  - rewrite <- IH. destruct ps; reflexivity.
Qed.

Lemma split_app_last (sep : ascii) (base suffix : string) :
  LoadStudents.no_sep sep suffix →
  LoadStudents.split sep (String.append base (String sep suffix))
  = LoadStudents.split sep base ++ [suffix].
Proof.
  intros Hs. induction base as [|c base IH]; simpl.
  - rewrite Ascii.eqb_refl. by rewrite Hs.
  - rewrite IH. destruct (Ascii.eqb c sep); [done|].
    destruct (split_cons sep base) as (p & ps & ->). done.
Qed.

(** On a file name [base_suffix] whose suffix holds no underscore, the label
    is [base]. *)
Lemma student_name_base (base suffix : string) :
  LoadStudents.no_sep "_"%char suffix →
  LoadStudents.student_name (String.append base (String "_"%char suffix)) = base.
Proof.
  intros Hs. unfold LoadStudents.student_name.
  rewrite (split_app_last _ _ _ Hs), removelast_last.
  apply concat_split.
Qed.

(** C5: evaluation at the failing input.  "Alice.jpg" is accepted by the
    build and carries no underscore: every piece of the split is dropped and
    the label is the empty string, where stripping a numeric disambiguator
    would give "Alice".  The label of "Alice_2.jpg" is "Alice". *)
Theorem student_name_without_underscore :
  LoadStudents.is_image "Alice.jpg" = true
  ∧ LoadStudents.student_name "Alice.jpg" = ""
  ∧ LoadStudents.is_image "Alice_2.jpg" = true
  ∧ LoadStudents.student_name "Alice_2.jpg" = "Alice".
Proof. repeat split; reflexivity. Qed.

(** ** Dataset building: grouping and averaging *)

Lemma get_add_encoding_eq (se : PyDict.dict (list LoadStudents.encoding))
    (name : string) (e : LoadStudents.encoding) :
  PyDict.get (LoadStudents.add_encoding se name e) name
  = Some (default [] (PyDict.get se name) ++ [e]).
Proof.
  unfold LoadStudents.add_encoding.
  destruct (PyDict.get se name); by rewrite dict_get_set_eq.
Qed.

Lemma get_add_encoding_ne (se : PyDict.dict (list LoadStudents.encoding))
    (name k : string) (e : LoadStudents.encoding) :
  name ≠ k →
  PyDict.get (LoadStudents.add_encoding se name e) k = PyDict.get se k.
Proof.
  intros Hne. unfold LoadStudents.add_encoding.
  destruct (PyDict.get se name); by rewrite dict_get_set_ne.
Qed.

Lemma keys_add_encoding_NoDup (se : PyDict.dict (list LoadStudents.encoding))
    (name : string) (e : LoadStudents.encoding) :
  NoDup (PyDict.keys se) → NoDup (PyDict.keys (LoadStudents.add_encoding se name e)).
Proof.
  intros H. unfold LoadStudents.add_encoding.
  destruct (PyDict.get se name); by apply dict_keys_set_NoDup.
Qed.

Lemma get_load_file (st : PyDict.dict (list LoadStudents.encoding) * nat)
    (f : LoadStudents.entry) (name : string) :
  PyDict.get (LoadStudents.load_file st f).1 name =
    match LoadStudents.contribution name f with
    | [] => PyDict.get st.1 name
    | l => Some (default [] (PyDict.get st.1 name) ++ l)
    end.
Proof.
  destruct f as [filename image]. unfold LoadStudents.load_file, LoadStudents.contribution.
  simpl. destruct (LoadStudents.is_image filename); simpl; [|done].
  destruct image as [e|]; simpl.
  - destruct (String.eqb (LoadStudents.student_name filename) name) eqn:E.
    + apply String.eqb_eq in E. subst name. apply get_add_encoding_eq.
    + apply String.eqb_neq in E. by apply get_add_encoding_ne.
  - by destruct (String.eqb _ _).
Qed.

Lemma get_fold_load_file (directory : list LoadStudents.entry)
    (st : PyDict.dict (list LoadStudents.encoding) * nat) (name : string) :
  PyDict.get (fold_left LoadStudents.load_file directory st).1 name =
    match LoadStudents.encodings_of name directory with
    | [] => PyDict.get st.1 name
    | l => Some (default [] (PyDict.get st.1 name) ++ l)
    end.
Proof.
  revert st. induction directory as [|f directory IH]; intros st; simpl; [done|].
  rewrite IH, get_load_file. unfold LoadStudents.encodings_of. simpl.
  destruct (LoadStudents.contribution name f) as [|c cs]; simpl; [done|].
  destruct (flat_map (LoadStudents.contribution name) directory) as [|x xs];
    simpl; [by rewrite app_nil_r|].
  by rewrite <- app_assoc.
Qed.

Lemma get_load_files (directory : list LoadStudents.entry) (name : string) :
  PyDict.get (LoadStudents.load_files directory).1 name =
    match LoadStudents.encodings_of name directory with
    | [] => None
    | l => Some l
    end.
Proof.
  unfold LoadStudents.load_files. rewrite get_fold_load_file. simpl. done.
Qed.

Lemma keys_load_files_NoDup (directory : list LoadStudents.entry) :
  NoDup (PyDict.keys (LoadStudents.load_files directory).1).
Proof.
  unfold LoadStudents.load_files.
  assert (H : NoDup (PyDict.keys (([], 0%nat) : PyDict.dict (list LoadStudents.encoding) * nat).1))
    by apply NoDup_nil_2.
  revert H. generalize (([], 0%nat) : PyDict.dict (list LoadStudents.encoding) * nat).
  induction directory as [|f directory IH]; intros st H; simpl; [done|].
  apply IH. destruct f as [filename image]. unfold LoadStudents.load_file.
  destruct (LoadStudents.is_image filename); [|done].
  destruct image; [|done]. simpl. by apply keys_add_encoding_NoDup.
Qed.

Lemma uniform_check (e : LoadStudents.encoding) (rest : list LoadStudents.encoding) :
  forallb (λ x, (length x =? length e)%nat) rest = true
  ↔ Forall (λ x, length x = length e) (e :: rest).
Proof.
  rewrite forallb_forall, Forall_cons, Forall_forall.
  split.
  - intros H. split; [done|]. intros x Hx. apply Nat.eqb_eq, H. by apply list_elem_of_In.
  - intros [_ H] x Hx. apply Nat.eqb_eq, H. by apply list_elem_of_In.
Qed.

Lemma average_inr (items : list (string * list LoadStudents.encoding))
    (aE : list LoadStudents.encoding) (aN : list string)
    (r : list LoadStudents.encoding * list string) :
  LoadStudents.average items aE aN = inr r →
  ∃ ms, r = (aE ++ ms, aN ++ map fst items)
        ∧ Forall2 (λ it m, LoadStudents.np_mean it.2 = inr m) items ms.
Proof.
  revert aE aN. induction items as [|[name es] items IH]; intros aE aN; simpl.
  - intros [= <-]. exists []. by rewrite !app_nil_r.
  - destruct (LoadStudents.np_mean es) as [e|m] eqn:E; simpl; [done|].
    intros H. apply IH in H as (ms & -> & HF).
    exists (m :: ms). rewrite <- !app_assoc. split; [done|]. by constructor.
Qed.

Lemma average_inl (items : list (string * list LoadStudents.encoding))
    (aE : list LoadStudents.encoding) (aN : list string) (e : exn) :
  LoadStudents.average items aE aN = inl e →
  ∃ k es, (k, es) ∈ items ∧ LoadStudents.np_mean es = inl e.
Proof.
  revert aE aN. induction items as [|[name es] items IH]; intros aE aN; simpl.
  - done.
  - destruct (LoadStudents.np_mean es) as [e'|m] eqn:E; simpl.
    + intros [= ->]. exists name, es. split; [apply elem_of_cons; by left|done].
    + intros H. apply IH in H as (k & es' & Hin & Hm).
      exists k, es'. split; [apply elem_of_cons; by right|done].
Qed.

Lemma lookup_label_means (items : list (string * list LoadStudents.encoding))
    (ms : list LoadStudents.encoding) (name : string) :
  Forall2 (λ it m, LoadStudents.np_mean it.2 = inr m) items ms →
  match PyDict.get items name with
  | None => LoadStudents.lookup_label (map fst items) ms name = None
  | Some es => ∃ m, LoadStudents.np_mean es = inr m
                    ∧ LoadStudents.lookup_label (map fst items) ms name = Some m
  end.
Proof.
  induction 1 as [|[k es] m items ms Hm HF IH]; simpl; [done|].
  destruct (String.eqb name k); [|exact IH]. by exists m.
Qed.

Lemma load_files_elem (directory : list LoadStudents.entry) (k : string)
    (es : list LoadStudents.encoding) :
  (k, es) ∈ (LoadStudents.load_files directory).1 ↔
  es ≠ [] ∧ LoadStudents.encodings_of k directory = es.
Proof.
  split.
  - intros Hin. apply dict_elem_get in Hin; [|apply keys_load_files_NoDup].
    rewrite get_load_files in Hin.
    destruct (LoadStudents.encodings_of k directory); [done|].
    by inversion Hin.
  - intros [Hne <-]. apply dict_get_Some_elem. rewrite get_load_files.
    by destruct (LoadStudents.encodings_of k directory).
Qed.

Lemma encodings_of_uniform (n : nat) (d : list LoadStudents.entry) (k : string) :
  LoadStudents.uniform_dimension n d →
  Forall (λ e, length e = n) (LoadStudents.encodings_of k d).
Proof.
  unfold LoadStudents.uniform_dimension, LoadStudents.encodings_of.
  induction 1 as [|[filename image] d Hf Hd IH]; simpl; [constructor|].
  apply Forall_app. split; [|exact IH].
  unfold LoadStudents.contribution. simpl.
  destruct (_ && _); [|constructor].
  destruct image as [e|]; constructor; [by apply Hf|constructor].
Qed.

Lemma np_mean_uniform (n : nat) (es : list LoadStudents.encoding) :
  es ≠ [] → Forall (λ e, length e = n) es →
  ∃ m, LoadStudents.np_mean es = inr m.
Proof.
  destruct es as [|e rest]; [done|]. intros _ H.
  unfold LoadStudents.np_mean.
  assert (C : forallb (λ x, (length x =? length e)%nat) rest = true).
  { apply uniform_check. apply Forall_cons in H as H'. destruct H' as [He _].
    rewrite He. exact H. }
  rewrite C. by eexists.
Qed.

(** On encodings of one dimension the build returns. *)
Lemma run_returns (n : nat) (d : list LoadStudents.entry) :
  LoadStudents.uniform_dimension n d → ∃ g, LoadStudents.run d = inr g.
Proof.
  intros Hu. unfold LoadStudents.run.
  pose proof (load_files_elem d) as Hel.
  destruct (LoadStudents.load_files d) as [se c]. simpl in *.
  destruct (LoadStudents.average se [] []) as [e|r] eqn:A; simpl.
  - apply average_inl in A as (k & es & Hin & Hm).
    apply Hel in Hin as [Hne <-].
    destruct (np_mean_uniform n _ Hne (encodings_of_uniform n d k Hu)) as [m Hm'].
    congruence.
  - by eexists.
Qed.

(** ** Dataset building in binary64: order of the files *)

Lemma SFadd_comm (prec emax : Z) (x y : spec_float) :
  SFadd prec emax x y = SFadd prec emax y x.
Proof.
  destruct x as [[|]|[|]| |[|] mx ex], y as [[|]|[|]| |[|] my ey]; simpl;
    try reflexivity.
  all: rewrite (Z.min_comm ey ex).
  all: f_equal; first [apply Z.add_comm | f_equal; apply Pos.add_comm | lia].
Qed.

(** Addition of two binary64 floats does not depend on their order. *)
Lemma float_add_comm (x y : float) : PrimFloat.add x y = PrimFloat.add y x.
Proof.
  rewrite <- (SF2Prim_Prim2SF (PrimFloat.add x y)),
    <- (SF2Prim_Prim2SF (PrimFloat.add y x)).
  rewrite !add_spec. unfold SF64add. by rewrite SFadd_comm.
Qed.

Lemma vadd64_comm (a b : LoadStudents64.encoding) :
  LoadStudents64.vadd a b = LoadStudents64.vadd b a.
Proof.
  unfold LoadStudents64.vadd. revert b.
  induction a as [|x a IH]; intros [|y b]; simpl; try done.
  by rewrite float_add_comm, IH.
Qed.

Lemma get_add_encoding64_eq (se : PyDict.dict (list LoadStudents64.encoding))
    (name : string) (e : LoadStudents64.encoding) :
  PyDict.get (LoadStudents64.add_encoding se name e) name
  = Some (default [] (PyDict.get se name) ++ [e]).
Proof.
  unfold LoadStudents64.add_encoding.
  destruct (PyDict.get se name); by rewrite dict_get_set_eq.
Qed.

Lemma get_add_encoding64_ne (se : PyDict.dict (list LoadStudents64.encoding))
    (name k : string) (e : LoadStudents64.encoding) :
  name ≠ k →
  PyDict.get (LoadStudents64.add_encoding se name e) k = PyDict.get se k.
Proof.
  intros Hne. unfold LoadStudents64.add_encoding.
  destruct (PyDict.get se name); by rewrite dict_get_set_ne.
Qed.

Lemma get_load_file64 (st : PyDict.dict (list LoadStudents64.encoding) * nat)
    (f : LoadStudents64.entry) (name : string) :
  PyDict.get (LoadStudents64.load_file st f).1 name =
    match LoadStudents64.contribution name f with
    | [] => PyDict.get st.1 name
    | l => Some (default [] (PyDict.get st.1 name) ++ l)
    end.
Proof.
  destruct f as [filename image].
  unfold LoadStudents64.load_file, LoadStudents64.contribution.
  simpl. destruct (LoadStudents.is_image filename); simpl; [|done].
  destruct image as [e|]; simpl.
  - destruct (String.eqb (LoadStudents.student_name filename) name) eqn:E.
    + apply String.eqb_eq in E. subst name. apply get_add_encoding64_eq.
    + apply String.eqb_neq in E. by apply get_add_encoding64_ne.
  - by destruct (String.eqb _ _).
Qed.

Lemma get_fold_load_file64 (directory : list LoadStudents64.entry)
    (st : PyDict.dict (list LoadStudents64.encoding) * nat) (name : string) :
  PyDict.get (fold_left LoadStudents64.load_file directory st).1 name =
    match LoadStudents64.encodings_of name directory with
    | [] => PyDict.get st.1 name
    | l => Some (default [] (PyDict.get st.1 name) ++ l)
    end.
Proof.
  revert st. induction directory as [|f directory IH]; intros st; simpl; [done|].
  rewrite IH, get_load_file64. unfold LoadStudents64.encodings_of. simpl.
  destruct (LoadStudents64.contribution name f) as [|c cs]; simpl; [done|].
  destruct (flat_map (LoadStudents64.contribution name) directory) as [|x xs];
    simpl; [by rewrite app_nil_r|].
  by rewrite <- app_assoc.
Qed.

(** The dictionary built from a listing holds, for each label, the
    encodings of the label's loaded files in the order of the listing. *)
Lemma get_load_files64 (directory : list LoadStudents64.entry) (name : string) :
  PyDict.get (LoadStudents64.load_files directory).1 name =
    match LoadStudents64.encodings_of name directory with
    | [] => None
    | l => Some l
    end.
Proof.
  unfold LoadStudents64.load_files. rewrite get_fold_load_file64. simpl. done.
Qed.

Lemma keys_load_files64_NoDup (directory : list LoadStudents64.entry) :
  NoDup (PyDict.keys (LoadStudents64.load_files directory).1).
Proof.
  unfold LoadStudents64.load_files.
  assert (H : NoDup (PyDict.keys
            (([], 0%nat) : PyDict.dict (list LoadStudents64.encoding) * nat).1))
    by apply NoDup_nil_2.
  revert H.
  generalize (([], 0%nat) : PyDict.dict (list LoadStudents64.encoding) * nat).
  induction directory as [|f directory IH]; intros st H; simpl; [done|].
  apply IH. destruct f as [filename image]. unfold LoadStudents64.load_file.
  destruct (LoadStudents.is_image filename); [|done].
  destruct image; [|done]. simpl. unfold LoadStudents64.add_encoding.
  destruct (PyDict.get st.1 _); by apply dict_keys_set_NoDup.
Qed.

Lemma load_files64_elem (directory : list LoadStudents64.entry) (k : string)
    (es : list LoadStudents64.encoding) :
  (k, es) ∈ (LoadStudents64.load_files directory).1 →
  es ≠ [] ∧ LoadStudents64.encodings_of k directory = es.
Proof.
  intros Hin. apply dict_elem_get in Hin; [|apply keys_load_files64_NoDup].
  rewrite get_load_files64 in Hin.
  destruct (LoadStudents64.encodings_of k directory); [done|].
  by inversion Hin.
Qed.

Lemma average64_inr (items : list (string * list LoadStudents64.encoding))
    (aE : list LoadStudents64.encoding) (aN : list string)
    (r : list LoadStudents64.encoding * list string) :
  LoadStudents64.average items aE aN = inr r →
  ∃ ms, r = (aE ++ ms, aN ++ map fst items)
        ∧ Forall2 (λ it m, LoadStudents64.np_mean it.2 = inr m) items ms.
Proof.
  revert aE aN. induction items as [|[name es] items IH]; intros aE aN; simpl.
  - intros [= <-]. exists []. by rewrite !app_nil_r.
  - destruct (LoadStudents64.np_mean es) as [e|m] eqn:E; simpl; [done|].
    intros H. apply IH in H as (ms & -> & HF).
    exists (m :: ms). rewrite <- !app_assoc. split; [done|]. by constructor.
Qed.

Lemma average64_inl (items : list (string * list LoadStudents64.encoding))
    (aE : list LoadStudents64.encoding) (aN : list string) (e : exn) :
  LoadStudents64.average items aE aN = inl e →
  ∃ k es, (k, es) ∈ items ∧ LoadStudents64.np_mean es = inl e.
Proof.
  revert aE aN. induction items as [|[name es] items IH]; intros aE aN; simpl.
  - done.
  - destruct (LoadStudents64.np_mean es) as [e'|m] eqn:E; simpl.
    + intros [= ->]. exists name, es. split; [apply elem_of_cons; by left|done].
    + intros H. apply IH in H as (k & es' & Hin & Hm).
      exists k, es'. split; [apply elem_of_cons; by right|done].
Qed.

Lemma lookup_label64_means (items : list (string * list LoadStudents64.encoding))
    (ms : list LoadStudents64.encoding) (name : string) :
  Forall2 (λ it m, LoadStudents64.np_mean it.2 = inr m) items ms →
  match PyDict.get items name with
  | None => LoadStudents64.lookup_label (map fst items) ms name = None
  | Some es => ∃ m, LoadStudents64.np_mean es = inr m
                    ∧ LoadStudents64.lookup_label (map fst items) ms name = Some m
  end.
Proof.
  induction 1 as [|[k es] m items ms Hm HF IH]; simpl; [done|].
  destruct (String.eqb name k); [|exact IH]. by exists m.
Qed.

Lemma encodings_of64_uniform (n : nat) (d : list LoadStudents64.entry) (k : string) :
  LoadStudents64.uniform_dimension n d →
  Forall (λ e, length e = n) (LoadStudents64.encodings_of k d).
Proof.
  unfold LoadStudents64.uniform_dimension, LoadStudents64.encodings_of.
  induction 1 as [|[filename image] d Hf Hd IH]; simpl; [constructor|].
  apply Forall_app. split; [|exact IH].
  unfold LoadStudents64.contribution. simpl.
  destruct (_ && _); [|constructor].
  destruct image as [e|]; constructor; [by apply Hf|constructor].
Qed.

Lemma np_mean64_uniform (n : nat) (es : list LoadStudents64.encoding) :
  es ≠ [] → Forall (λ e, length e = n) es →
  ∃ m, LoadStudents64.np_mean es = inr m.
Proof.
  destruct es as [|e rest]; [done|]. intros _ H.
  unfold LoadStudents64.np_mean.
  assert (C : forallb (λ x, (length x =? length e)%nat) rest = true).
  { apply Forall_cons in H as [He Hrest]. apply forallb_forall.
    intros x Hx. apply Nat.eqb_eq. rewrite He.
    rewrite Forall_forall in Hrest. apply Hrest. by apply list_elem_of_In. }
  rewrite C. by eexists.
Qed.

(** On encodings of one dimension the binary64 build returns. *)
Lemma run64_returns (n : nat) (d : list LoadStudents64.entry) :
  LoadStudents64.uniform_dimension n d → ∃ g, LoadStudents64.run d = inr g.
Proof.
  intros Hu. unfold LoadStudents64.run.
  pose proof (load_files64_elem d) as Hel.
  destruct (LoadStudents64.load_files d) as [se c]. simpl in *.
  destruct (LoadStudents64.average se [] []) as [e|r] eqn:A; simpl.
  - apply average64_inl in A as (k & es & Hin & Hm).
    apply Hel in Hin as [Hne <-].
    destruct (np_mean64_uniform n _ Hne (encodings_of64_uniform n d k Hu))
      as [m Hm'].
    congruence.
  - by eexists.
Qed.

(** The vector stored for a label by a build that returns. *)
Lemma run64_stored_vector (directory : list LoadStudents64.entry)
    (g : LoadStudents64.dataset) (name : string) :
  LoadStudents64.run directory = inr g →
  match LoadStudents64.encodings_of name directory with
  | [] => LoadStudents64.stored_vector g name = None
  | e :: es => ∃ m, LoadStudents64.np_mean (e :: es) = inr m
                    ∧ LoadStudents64.stored_vector g name = Some m
  end.
Proof.
  unfold LoadStudents64.run.
  pose proof (get_load_files64 directory name) as G.
  destruct (LoadStudents64.load_files directory) as [se c]. simpl in *.
  destruct (LoadStudents64.average se [] []) as [e|r] eqn:A; simpl; [done|].
  intros [= <-]. apply average64_inr in A as (ms & -> & HF).
  pose proof (lookup_label64_means _ _ name HF) as L. rewrite G in L.
  unfold LoadStudents64.stored_vector. simpl.
  by destruct (LoadStudents64.encodings_of name directory).
Qed.

Lemma np_mean64_pair (a b : LoadStudents64.encoding) :
  length a = length b →
  LoadStudents64.np_mean [a; b]
  = inr (map (λ x, PrimFloat.div x (LoadStudents64.count 2))
           (LoadStudents64.vadd a b)).
Proof.
  intros Hlen. unfold LoadStudents64.np_mean. simpl.
  by rewrite <- Hlen, Nat.eqb_refl.
Qed.

(** C6 (as stated): the stored mean depends on the order of the files once
    a label has three images.  Label "A" with the encodings [0.1], [0.2] and
    [0.3] (the binary64 values nearest to them): listed in this order the
    build stores ((0.1 + 0.2) + 0.3) / 3 = 0.20000000000000004, listed in
    the opposite order ((0.3 + 0.2) + 0.1) / 3 = 0.19999999999999998. *)
Lemma build64_order_dependent :
  [("A_1.jpg", Some [0x1.999999999999ap-4%float]);
   ("A_2.jpg", Some [0x1.999999999999ap-3%float]);
   ("A_3.jpg", Some [0x1.3333333333333p-2%float])]
  ≡ₚ [("A_3.jpg", Some [0x1.3333333333333p-2%float]);
      ("A_2.jpg", Some [0x1.999999999999ap-3%float]);
      ("A_1.jpg", Some [0x1.999999999999ap-4%float])]
  ∧ ∃ g1 g2,
      LoadStudents64.run
        [("A_1.jpg", Some [0x1.999999999999ap-4%float]);
         ("A_2.jpg", Some [0x1.999999999999ap-3%float]);
         ("A_3.jpg", Some [0x1.3333333333333p-2%float])] = inr g1
      ∧ LoadStudents64.run
          [("A_3.jpg", Some [0x1.3333333333333p-2%float]);
           ("A_2.jpg", Some [0x1.999999999999ap-3%float]);
           ("A_1.jpg", Some [0x1.999999999999ap-4%float])] = inr g2
      ∧ LoadStudents64.stored_vector g1 "A" = Some [0x1.999999999999bp-3%float]
      ∧ LoadStudents64.stored_vector g2 "A" = Some [0x1.9999999999999p-3%float]
      ∧ LoadStudents64.stored_vector g1 "A" ≠ LoadStudents64.stored_vector g2 "A".
Proof.
  split.
  - apply (Permutation_rev
      [("A_1.jpg", Some [0x1.999999999999ap-4%float]);
       ("A_2.jpg", Some [0x1.999999999999ap-3%float]);
       ("A_3.jpg", Some [0x1.3333333333333p-2%float])]).
  - eexists _, _. split; [vm_compute; reflexivity|].
    split; [vm_compute; reflexivity|].
    split; [vm_compute; reflexivity|]. split; [vm_compute; reflexivity|].
    intros H.
    apply (f_equal (λ o : option LoadStudents64.encoding,
                      match o with
                      | Some [x] => PrimFloat.eqb x 0x1.999999999999bp-3%float
                      | _ => false
                      end)) in H.
    vm_compute in H. discriminate H.
Qed.

(** C6 (amended): for a label with exactly two loaded images A1 and A2, the
    build stores for that label the same vector whichever order the files
    are listed in, namely (A1 + A2) / 2 component by component in binary64;
    when all encodings of the directory have one dimension, as the
    encodings of the face library do, the build returns for both orders and
    stores that vector.  The mean is invariant under the exchange of two
    input vectors. *)
Theorem build64_two_images_order_independent
    (d1 d2 : list LoadStudents64.entry) (name : string)
    (a b : LoadStudents64.encoding) (n : nat) :
  d1 ≡ₚ d2 →
  LoadStudents64.uniform_dimension n d1 →
  LoadStudents64.encodings_of name d1 = [a; b] →
  ∃ g1 g2,
    LoadStudents64.run d1 = inr g1
    ∧ LoadStudents64.run d2 = inr g2
    ∧ LoadStudents64.stored_vector g1 name
      = Some (map (λ x, PrimFloat.div x (LoadStudents64.count 2))
                (LoadStudents64.vadd a b))
    ∧ LoadStudents64.stored_vector g2 name
      = Some (map (λ x, PrimFloat.div x (LoadStudents64.count 2))
                (LoadStudents64.vadd a b))
    ∧ LoadStudents64.stored_vector g1 name = LoadStudents64.stored_vector g2 name.
Proof.
  intros Hp Hu Hab.
  assert (Hu2 : LoadStudents64.uniform_dimension n d2).
  { unfold LoadStudents64.uniform_dimension in *. by rewrite <- Hp. }
  destruct (run64_returns n d1 Hu) as [g1 R1].
  destruct (run64_returns n d2 Hu2) as [g2 R2].
  pose proof (encodings_of64_uniform n d1 name Hu) as Hlen. rewrite Hab in Hlen.
  apply Forall_cons in Hlen as [Ha Hlen]. apply Forall_cons in Hlen as [Hb _].
  assert (Hlab : length a = length b) by congruence.
  pose proof (run64_stored_vector d1 g1 name R1) as S1. rewrite Hab in S1.
  destruct S1 as (m1 & M1 & S1). rewrite np_mean64_pair in M1 by done.
  injection M1 as <-.
  assert (Hp2 : [a; b] ≡ₚ LoadStudents64.encodings_of name d2).
  { rewrite <- Hab. unfold LoadStudents64.encodings_of.
    by apply Permutation_flat_map. }
  pose proof (run64_stored_vector d2 g2 name R2) as S2.
  apply Permutation_length_2_inv in Hp2 as [E2|E2]; rewrite E2 in S2;
    destruct S2 as (m2 & M2 & S2).
  - rewrite np_mean64_pair in M2 by done. injection M2 as <-.
    exists g1, g2. rewrite S1, S2. done.
  - rewrite np_mean64_pair in M2 by done. injection M2 as <-.
    rewrite (vadd64_comm b a) in S2.
    exists g1, g2. rewrite S1, S2. done.
Qed.

Lemma build64_two_images_order_independent_witness :
  ∃ g1 g2,
    LoadStudents64.run
      [("A_1.jpg", Some [0.5%float; 1%float]);
       ("A_2.jpg", Some [0.25%float; 2%float]);
       ("B_1.jpg", Some [4%float; 8%float])] = inr g1
    ∧ LoadStudents64.run
        [("A_2.jpg", Some [0.25%float; 2%float]);
         ("A_1.jpg", Some [0.5%float; 1%float]);
         ("B_1.jpg", Some [4%float; 8%float])] = inr g2
    ∧ LoadStudents64.stored_vector g1 "A"
      = Some (map (λ x, PrimFloat.div x (LoadStudents64.count 2))
                (LoadStudents64.vadd [0.5%float; 1%float] [0.25%float; 2%float]))
    ∧ LoadStudents64.stored_vector g2 "A"
      = Some (map (λ x, PrimFloat.div x (LoadStudents64.count 2))
                (LoadStudents64.vadd [0.5%float; 1%float] [0.25%float; 2%float]))
    ∧ LoadStudents64.stored_vector g1 "A" = LoadStudents64.stored_vector g2 "A".
Proof.
  apply (build64_two_images_order_independent
           [("A_1.jpg", Some [0.5%float; 1%float]);
            ("A_2.jpg", Some [0.25%float; 2%float]);
            ("B_1.jpg", Some [4%float; 8%float])]
           [("A_2.jpg", Some [0.25%float; 2%float]);
            ("A_1.jpg", Some [0.5%float; 1%float]);
            ("B_1.jpg", Some [4%float; 8%float])]
           "A" [0.5%float; 1%float] [0.25%float; 2%float] 2).
  - apply perm_swap.
  - repeat constructor; intros e [= <-]; reflexivity.
  - reflexivity.
Defined.

(** ** Daily records *)

(** [build_attendance_data] returns, and what it returns. *)
Lemma build_attendance_data_returns (d : Z) (present all : list string) :
  AttendanceManager.build_attendance_data d present all =
  inr {| AttendanceManager.date := d;
         AttendanceManager.present_students := present;
         AttendanceManager.all_students := all;
         AttendanceManager.absent_students :=
           elements ((list_to_set all : gset string) ∖ list_to_set present);
         AttendanceManager.total_students := length all;
         AttendanceManager.present_count := length present;
         AttendanceManager.attendance_percentage :=
           match all with
           | [] => 0%Q
           | _ :: _ => (inject_Z (Z.of_nat (length present))
                        / inject_Z (Z.of_nat (length all)) * 100)%Q
           end |}.
Proof.
  unfold AttendanceManager.build_attendance_data, AttendanceManager.truediv.
  destruct all as [|a all]; reflexivity.
Qed.

Lemma save_attendance_returns (self : AttendanceManager.store) (dt : Z)
    (present all : list string) :
  ∃ r, AttendanceManager.build_attendance_data
         (Datetime.strftime_date dt) present all = inr r
       ∧ AttendanceManager.save_attendance self dt present all =
         inr {| AttendanceManager.files :=
                  <[Datetime.strftime_date dt := r]> (AttendanceManager.files self);
                AttendanceManager.writes :=
                  Datetime.strftime_date dt :: AttendanceManager.writes self |}.
Proof.
  unfold AttendanceManager.save_attendance.
  rewrite build_attendance_data_returns. by eexists.
Qed.

(** C3 (as stated): the stored percentage is not rounded to one decimal.
    For all_students = [A, B, C] and present_students = [A] the record
    holds 100/3, not 33.3. *)
Lemma percentage_not_rounded :
  ∃ self r,
    AttendanceManager.save_attendance
      {| AttendanceManager.files := ∅; AttendanceManager.writes := [] |}
      0 ["A"] ["A"; "B"; "C"] = inr self
    ∧ AttendanceManager.get_attendance self 0 = Some r
    ∧ (AttendanceManager.attendance_percentage r == 100 # 3)%Q
    ∧ ¬ (AttendanceManager.attendance_percentage r == 333 # 10)%Q.
Proof.
  destruct (save_attendance_returns
    {| AttendanceManager.files := ∅; AttendanceManager.writes := [] |}
    0 ["A"] ["A"; "B"; "C"]) as (r & Hr & Hs).
  rewrite build_attendance_data_returns in Hr. inversion Hr as [Er]. clear Hr.
  eexists _, r. split; [exact Hs|]. split.
  - unfold AttendanceManager.get_attendance. simpl. apply lookup_insert_eq.
  - rewrite <- Er. simpl. split; [reflexivity|]. intros H. discriminate H.
Qed.

Lemma absent_students_spec (present all : list string) (x : string) :
  x ∈ elements ((list_to_set all : gset string) ∖ list_to_set present)
  ↔ x ∈ all ∧ x ∉ present.
Proof. rewrite elem_of_elements. set_solver. Qed.

Lemma save_attendance_get (self : AttendanceManager.store) (dt : Z)
    (present all : list string) :
  ∃ self' r,
    AttendanceManager.build_attendance_data
      (Datetime.strftime_date dt) present all = inr r
    ∧ AttendanceManager.save_attendance self dt present all = inr self'
    ∧ AttendanceManager.get_attendance self' dt = Some r.
Proof.
  destruct (save_attendance_returns self dt present all) as (r & Hr & Hs).
  eexists _, r. split; [exact Hr|]. split; [exact Hs|].
  unfold AttendanceManager.get_attendance. simpl. apply lookup_insert_eq.
Qed.

(** C3 (amended): the persisted record holds the two lists as given,
    [absent_students] with exactly the members of all_students that are not
    in present_students, each once and in no specified order, the two
    counts, and present/total*100 without rounding (0 for an empty
    all_students).  For all_students = [A, B, C] and present_students = [A],
    absent is a permutation of [B, C] and the percentage is 100/3. *)
Theorem save_attendance_record :
  (∀ (self : AttendanceManager.store) (dt : Z) (present all : list string),
     ∃ self' r,
       AttendanceManager.save_attendance self dt present all = inr self'
       ∧ AttendanceManager.get_attendance self' dt = Some r
       ∧ AttendanceManager.present_students r = present
       ∧ AttendanceManager.all_students r = all
       ∧ (∀ x, x ∈ AttendanceManager.absent_students r ↔ x ∈ all ∧ x ∉ present)
       ∧ NoDup (AttendanceManager.absent_students r)
       ∧ AttendanceManager.total_students r = length all
       ∧ AttendanceManager.present_count r = length present
       ∧ (AttendanceManager.attendance_percentage r ==
            match all with
            | [] => 0
            | _ :: _ => inject_Z (Z.of_nat (length present))
                        / inject_Z (Z.of_nat (length all)) * 100
            end)%Q)
  ∧ (∀ (self : AttendanceManager.store) (dt : Z),
       ∃ self' r,
         AttendanceManager.save_attendance self dt ["A"] ["A"; "B"; "C"]
         = inr self'
         ∧ AttendanceManager.get_attendance self' dt = Some r
         ∧ AttendanceManager.absent_students r ≡ₚ ["B"; "C"]
         ∧ (AttendanceManager.attendance_percentage r == 100 # 3)%Q).
Proof.
  split.
  - intros self dt present all.
    destruct (save_attendance_get self dt present all) as (self' & r & Hr & Hs & Hg).
    rewrite build_attendance_data_returns in Hr. inversion Hr as [Er]. clear Hr.
    exists self', r. split; [exact Hs|]. split; [exact Hg|].
    rewrite <- Er. simpl.
    split; [done|]. split; [done|].
    split; [apply absent_students_spec|].
    split; [apply NoDup_elements|].
    split; [done|]. split; [done|]. apply Qeq_refl.
  - intros self dt.
    destruct (save_attendance_get self dt ["A"] ["A"; "B"; "C"])
      as (self' & r & Hr & Hs & Hg).
    rewrite build_attendance_data_returns in Hr. inversion Hr as [Er]. clear Hr.
    exists self', r. split; [exact Hs|]. split; [exact Hg|].
    rewrite <- Er.
    cbn [AttendanceManager.absent_students AttendanceManager.attendance_percentage].
    split; [|reflexivity].
    apply NoDup_Permutation.
    + apply NoDup_elements.
    + apply NoDup_cons. split; [|apply NoDup_singleton].
      intros H. apply list_elem_of_singleton in H. discriminate H.
    + intros x.
      rewrite elem_of_elements, elem_of_difference, !elem_of_union,
        !elem_of_singleton, !elem_of_cons, elem_of_nil.
      split.
      * intros [[->|[->|[->|H]]] Hn]; [|by left|by right; left|].
        -- exfalso. apply Hn. by left.
        -- by apply not_elem_of_empty in H.
      * intros [->|[->|[]]].
        -- split; [by right; left|].
           intros [H|H]; [discriminate H|by apply not_elem_of_empty in H].
        -- split; [by right; right; left|].
           intros [H|H]; [discriminate H|by apply not_elem_of_empty in H].
Qed.

(** C9: with an empty all_students the stored percentage is 0; the division
    is evaluated only when all_students is non-empty, so [save_attendance]
    always returns and never raises ZeroDivisionError. *)
Theorem save_attendance_no_division_by_zero :
  (∀ (self : AttendanceManager.store) (dt : Z) (present : list string),
     ∃ self' r,
       AttendanceManager.save_attendance self dt present [] = inr self'
       ∧ AttendanceManager.get_attendance self' dt = Some r
       ∧ AttendanceManager.attendance_percentage r = 0%Q)
  ∧ (∀ (self : AttendanceManager.store) (dt : Z) (present all : list string),
       (∃ self', AttendanceManager.save_attendance self dt present all = inr self')
       ∧ AttendanceManager.save_attendance self dt present all
         ≠ inl ZeroDivisionError)
  ∧ (∀ (present all : list string) (a : string),
       AttendanceManager.truthy (a :: all) = true
       ∧ ∃ q, AttendanceManager.truediv (length present) (length (a :: all))
              = inr q).
Proof.
  split; [|split].
  - intros self dt present.
    destruct (save_attendance_get self dt present []) as (self' & r & Hr & Hs & Hg).
    rewrite build_attendance_data_returns in Hr. inversion Hr as [Er]. clear Hr.
    exists self', r. split; [exact Hs|]. split; [exact Hg|]. by rewrite <- Er.
  - intros self dt present all.
    destruct (save_attendance_get self dt present all) as (self' & r & _ & Hs & _).
    rewrite Hs. split; [by exists self'|discriminate].
  - intros present all a. split; [done|].
    unfold AttendanceManager.truediv. simpl. by eexists.
Qed.

(** ** The ledger *)

Lemma timedelta_seconds_same_day (stored delta u : Z) :
  0 ≤ delta < 86400 → 0 ≤ u < 1000000 →
  Datetime.timedelta_seconds ((stored + delta) * 1000000 + u)
    (Datetime.strptime stored) = delta.
Proof.
  intros Hd Hu.
  unfold Datetime.timedelta_seconds, Datetime.strptime,
    Datetime.microseconds_per_second, Datetime.seconds_per_day.
  replace ((stored + delta) * 1000000 + u - stored * 1000000)
    with (delta * 1000000 + u) by lia.
  rewrite Z.div_add_l by lia. rewrite (Z.div_small u) by lia.
  rewrite Z.add_0_r. apply Z.mod_small. lia.
Qed.

Lemma timedelta_seconds_next_day (stored delta u : Z) :
  0 ≤ delta < 86400 → 0 ≤ u < 1000000 →
  Datetime.timedelta_seconds ((stored + 86400 + delta) * 1000000 + u)
    (Datetime.strptime stored) = delta
  ∧ Datetime.elapsed_seconds ((stored + 86400 + delta) * 1000000 + u)
      (Datetime.strptime stored) = 86400 + delta.
Proof.
  intros Hd Hu.
  unfold Datetime.timedelta_seconds, Datetime.elapsed_seconds, Datetime.strptime,
    Datetime.microseconds_per_second, Datetime.seconds_per_day.
  replace ((stored + 86400 + delta) * 1000000 + u - stored * 1000000)
    with ((86400 + delta) * 1000000 + u) by lia.
  rewrite Z.div_add_l by lia. rewrite (Z.div_small u) by lia.
  rewrite Z.add_0_r. split; [|done].
  replace (86400 + delta) with (delta + 1 * 86400) by lia.
  rewrite Z.mod_add by lia. apply Z.mod_small. lia.
Qed.

(** What [update_attendance_record] does when the condition holds. *)
Lemma update_recorded (self : AttendanceSystem.app) (name : string)
    (timestamp now now_save : Z) :
  AttendanceSystem.should_record self name now = true →
  ∃ r,
    AttendanceManager.present_students r
      = PyDict.keys (PyDict.set (AttendanceSystem.present_students self) name timestamp)
    ∧ AttendanceSystem.update_attendance_record self name timestamp now now_save
      = inr {| AttendanceSystem.present_students :=
                 PyDict.set (AttendanceSystem.present_students self) name timestamp;
               AttendanceSystem.known_face_names :=
                 AttendanceSystem.known_face_names self;
               AttendanceSystem.duplicate_prevention :=
                 AttendanceSystem.duplicate_prevention self;
               AttendanceSystem.attendance_manager :=
                 {| AttendanceManager.files :=
                      <[Datetime.strftime_date now_save := r]>
                        (AttendanceManager.files
                           (AttendanceSystem.attendance_manager self));
                    AttendanceManager.writes :=
                      Datetime.strftime_date now_save
                      :: AttendanceManager.writes
                           (AttendanceSystem.attendance_manager self) |} |}.
Proof.
  intros H. unfold AttendanceSystem.update_attendance_record. rewrite H.
  destruct (save_attendance_returns (AttendanceSystem.attendance_manager self)
              now_save
              (PyDict.keys (PyDict.set (AttendanceSystem.present_students self)
                              name timestamp))
              (AttendanceSystem.known_face_names self)) as (r & Hr & ->).
  exists r. split; [|done].
  rewrite build_attendance_data_returns in Hr. by inversion Hr.
Qed.

Lemma update_ignored (self : AttendanceSystem.app) (name : string)
    (timestamp now now_save : Z) :
  AttendanceSystem.should_record self name now = false →
  AttendanceSystem.update_attendance_record self name timestamp now now_save
  = inr self.
Proof.
  intros H. unfold AttendanceSystem.update_attendance_record. by rewrite H.
Qed.

(** A recorded sighting is a change of state: one more file write. *)
Lemma update_recorded_changes (self : AttendanceSystem.app) (name : string)
    (timestamp now now_save : Z) :
  AttendanceSystem.should_record self name now = true →
  AttendanceSystem.update_attendance_record self name timestamp now now_save
  ≠ inr self.
Proof.
  intros H E.
  destruct (update_recorded self name timestamp now now_save H) as (r & _ & E').
  rewrite E' in E. inversion E as [E0]. clear E E'.
  apply (f_equal (λ s, length (AttendanceManager.writes
                                 (AttendanceSystem.attendance_manager s)))) in E0.
  simpl in E0. lia.
Qed.

Lemma update_preserves (self : AttendanceSystem.app) (name : string)
    (timestamp now now_save : Z) :
  AttendanceSystem.ledger_ok self →
  ∃ self',
    AttendanceSystem.update_attendance_record self name timestamp now now_save
    = inr self'
    ∧ AttendanceSystem.ledger_ok self'.
Proof.
  intros [Hd Hr].
  destruct (AttendanceSystem.should_record self name now) eqn:E.
  - destruct (update_recorded self name timestamp now now_save E) as (r & Hp & ->).
    eexists. split; [done|]. split; simpl.
    + by apply dict_keys_set_NoDup.
    + intros d r' Hl. destruct (decide (Datetime.strftime_date now_save = d)) as [<-|Hne].
      * rewrite lookup_insert_eq in Hl. inversion Hl. subst r'.
        rewrite Hp. by apply dict_keys_set_NoDup.
      * rewrite lookup_insert_ne in Hl by done. eauto.
  - rewrite (update_ignored _ _ _ _ _ E). by exists self.
Qed.

Lemma handle_preserves (self : AttendanceSystem.app) (ev : AttendanceSystem.event) :
  AttendanceSystem.ledger_ok self →
  ∃ self', AttendanceSystem.handle self ev = inr self'
           ∧ AttendanceSystem.ledger_ok self'.
Proof.
  intros Hok. destruct ev as [name ts now ns|checked|names|now]; simpl.
  - by apply update_preserves.
  - eexists. split; [done|]. exact Hok.
  - eexists. split; [done|]. exact Hok.
  - eexists. split; [done|]. destruct Hok as [_ Hr]. split; simpl.
    + apply NoDup_nil_2.
    + unfold AttendanceManager.clear_attendance.
      destruct (AttendanceManager.files _ !! _) eqn:E; simpl; [|done].
      intros d r Hl. apply lookup_delete_Some in Hl as [_ Hl]. eauto.
Qed.

Lemma run_preserves (events : list AttendanceSystem.event) (self : AttendanceSystem.app) :
  AttendanceSystem.ledger_ok self →
  ∃ self', AttendanceSystem.run self events = inr self'
           ∧ AttendanceSystem.ledger_ok self'.
Proof.
  revert self. induction events as [|ev events IH]; intros self Hok; simpl.
  - by exists self.
  - destruct (handle_preserves self ev Hok) as (s1 & -> & Hok1). simpl.
    by apply IH.
Qed.

(** C4: from the start of the application over attendance files that list
    every present student once, any sequence of recognitions, setting
    changes, dataset loads and clears runs to a state in which every
    persisted record lists each student at most once (and so does the
    in-memory dictionary). *)
Theorem present_at_most_once
    (disk : gmap Z AttendanceManager.attendance_data)
    (events : list AttendanceSystem.event) :
  AttendanceSystem.records_unique disk →
  ∃ self,
    AttendanceSystem.run (AttendanceSystem.init disk) events = inr self
    ∧ NoDup (PyDict.keys (AttendanceSystem.present_students self))
    ∧ ∀ d r,
        AttendanceManager.files (AttendanceSystem.attendance_manager self) !! d
        = Some r →
        NoDup (AttendanceManager.present_students r).
Proof.
  intros Hdisk.
  destruct (run_preserves events (AttendanceSystem.init disk)) as (self & Hr & Hd & Hu).
  - split; [apply NoDup_nil_2|exact Hdisk].
  - exists self. split; [exact Hr|]. split; [exact Hd|exact Hu].
Qed.

Lemma present_at_most_once_witness :
  ∃ self,
    AttendanceSystem.run (AttendanceSystem.init ∅)
      [AttendanceSystem.Recognized "Bob" 100 100000000 100000001;
       AttendanceSystem.SetDuplicatePrevention false;
       AttendanceSystem.Recognized "Bob" 101 101000000 101000001;
       AttendanceSystem.Recognized "Ann" 102 102000000 102000001] = inr self
    ∧ NoDup (PyDict.keys (AttendanceSystem.present_students self))
    ∧ ∀ d r,
        AttendanceManager.files (AttendanceSystem.attendance_manager self) !! d
        = Some r →
        NoDup (AttendanceManager.present_students r).
Proof.
  apply (present_at_most_once ∅
    [AttendanceSystem.Recognized "Bob" 100 100000000 100000001;
     AttendanceSystem.SetDuplicatePrevention false;
     AttendanceSystem.Recognized "Bob" 101 101000000 101000001;
     AttendanceSystem.Recognized "Ann" 102 102000000 102000001]).
  intros d r H. rewrite lookup_empty in H. discriminate H.
Defined.

Lemma should_record_present (self : AttendanceSystem.app) (name : string)
    (now stored : Z) :
  AttendanceSystem.duplicate_prevention self = true →
  PyDict.get (AttendanceSystem.present_students self) name = Some stored →
  AttendanceSystem.should_record self name now
  = (30 <? Datetime.timedelta_seconds now (Datetime.strptime stored))%Z.
Proof.
  intros Hd Hg. unfold AttendanceSystem.should_record. by rewrite Hd, Hg.
Qed.

Lemma should_record_absent (self : AttendanceSystem.app) (name : string) (now : Z) :
  PyDict.get (AttendanceSystem.present_students self) name = None →
  AttendanceSystem.should_record self name now = true.
Proof.
  intros Hg. unfold AttendanceSystem.should_record. rewrite Hg.
  apply orb_true_r.
Qed.

Lemma count_keys_set_new {V : Type} (d : PyDict.dict V) (k : string) (v : V) :
  PyDict.get d k = None →
  count_occ string_dec (PyDict.keys (PyDict.set d k v)) k = 1%nat.
Proof.
  intros Hg. rewrite dict_keys_set. unfold PyDict.contains. rewrite Hg.
  rewrite count_occ_app. simpl.
  destruct (string_dec k k) as [_|Hne]; [|done].
  apply dict_get_None in Hg.
  rewrite (proj1 (count_occ_not_In string_dec _ _)); [done|].
  intros Hin. apply Hg. by apply list_elem_of_In.
Qed.

Lemma keys_set_present {V : Type} (d : PyDict.dict V) (k : string) (v v' : V) :
  PyDict.get d k = Some v →
  PyDict.keys (PyDict.set d k v') = PyDict.keys d.
Proof.
  intros Hg. rewrite dict_keys_set. unfold PyDict.contains. by rewrite Hg.
Qed.

(** C2: with duplicate prevention on, a first sighting of a person at [t0]
    is recorded once, in memory and in the persisted record of the day,
    with timestamp [t0]; a sighting 5 seconds later changes
    nothing (same state, no file write); a sighting 31 seconds later leaves
    the present set as it is and moves the stored timestamp to [t0 + 31];
    every sighting handled up to 30 seconds after the stored timestamp
    leaves the state unchanged.  Each sighting is handled within the second
    in which it was emitted ([u1], [u2], [u3] microseconds later). *)
Theorem dedup_window (self : AttendanceSystem.app) (name : string)
    (t0 u1 u2 u3 ns1 ns2 ns3 : Z) :
  AttendanceSystem.duplicate_prevention self = true →
  PyDict.get (AttendanceSystem.present_students self) name = None →
  0 ≤ u1 < 1000000 → 0 ≤ u2 < 1000000 → 0 ≤ u3 < 1000000 →
  ∃ s1 s3,
    AttendanceSystem.update_attendance_record self name t0
      (t0 * 1000000 + u1) ns1 = inr s1
    ∧ count_occ string_dec
        (PyDict.keys (AttendanceSystem.present_students s1)) name = 1%nat
    ∧ (∃ r, AttendanceManager.get_attendance
              (AttendanceSystem.attendance_manager s1) ns1 = Some r
            ∧ count_occ string_dec (AttendanceManager.present_students r) name
              = 1%nat)
    ∧ PyDict.get (AttendanceSystem.present_students s1) name = Some t0
    ∧ AttendanceSystem.update_attendance_record s1 name (t0 + 5)
        ((t0 + 5) * 1000000 + u2) ns2 = inr s1
    ∧ AttendanceSystem.update_attendance_record s1 name (t0 + 31)
        ((t0 + 31) * 1000000 + u3) ns3 = inr s3
    ∧ PyDict.keys (AttendanceSystem.present_students s3)
      = PyDict.keys (AttendanceSystem.present_students s1)
    ∧ PyDict.get (AttendanceSystem.present_students s3) name = Some (t0 + 31)
    ∧ (∀ delta timestamp u ns : Z,
         (0 ≤ delta ≤ 30)%Z → 0 ≤ u < 1000000 →
         AttendanceSystem.update_attendance_record s1 name timestamp
           ((t0 + delta) * 1000000 + u) ns = inr s1).
Proof.
  intros Hdup Hnew Hu1 Hu2 Hu3.
  destruct (update_recorded self name t0 (t0 * 1000000 + u1) ns1
              (should_record_absent self name _ Hnew)) as (r1 & Hr1 & E1).
  match type of E1 with _ = inr ?s => set (s1 := s) in * end.
  assert (Hd1 : AttendanceSystem.duplicate_prevention s1 = true) by exact Hdup.
  assert (Hg1 : PyDict.get (AttendanceSystem.present_students s1) name = Some t0)
    by apply dict_get_set_eq.
  assert (Hwin : ∀ delta timestamp u ns : Z,
            (0 ≤ delta ≤ 30)%Z → 0 ≤ u < 1000000 →
            AttendanceSystem.update_attendance_record s1 name timestamp
              ((t0 + delta) * 1000000 + u) ns = inr s1).
  { intros delta timestamp u ns Hdelta Hu. apply update_ignored.
    rewrite (should_record_present s1 name _ t0 Hd1 Hg1).
    rewrite timedelta_seconds_same_day by lia. apply Z.ltb_ge. lia. }
  assert (H31 : AttendanceSystem.should_record s1 name ((t0 + 31) * 1000000 + u3)
                = true).
  { rewrite (should_record_present s1 name _ t0 Hd1 Hg1).
    rewrite timedelta_seconds_same_day by lia. done. }
  destruct (update_recorded s1 name (t0 + 31) ((t0 + 31) * 1000000 + u3) ns3 H31)
    as (r3 & _ & E3).
  match type of E3 with _ = inr ?s => exists s1, s end.
  split; [exact E1|].
  split; [by apply count_keys_set_new|].
  split.
  { exists r1. split; [apply lookup_insert_eq|].
    rewrite Hr1. by apply count_keys_set_new. }
  split; [exact Hg1|].
  split; [apply Hwin; lia|].
  split; [exact E3|].
  split; [by apply (keys_set_present _ _ t0)|].
  split; [apply dict_get_set_eq|exact Hwin].
Qed.

Lemma dedup_window_witness :
  ∃ s1 s3,
    AttendanceSystem.update_attendance_record (AttendanceSystem.init ∅) "Bob" 1000
      (1000 * 1000000 + 250000) 1000300000 = inr s1
    ∧ count_occ string_dec
        (PyDict.keys (AttendanceSystem.present_students s1)) "Bob" = 1%nat
    ∧ (∃ r, AttendanceManager.get_attendance
              (AttendanceSystem.attendance_manager s1) 1000300000 = Some r
            ∧ count_occ string_dec (AttendanceManager.present_students r) "Bob"
              = 1%nat)
    ∧ PyDict.get (AttendanceSystem.present_students s1) "Bob" = Some 1000
    ∧ AttendanceSystem.update_attendance_record s1 "Bob" (1000 + 5)
        ((1000 + 5) * 1000000 + 250000) 1005300000 = inr s1
    ∧ AttendanceSystem.update_attendance_record s1 "Bob" (1000 + 31)
        ((1000 + 31) * 1000000 + 250000) 1031300000 = inr s3
    ∧ PyDict.keys (AttendanceSystem.present_students s3)
      = PyDict.keys (AttendanceSystem.present_students s1)
    ∧ PyDict.get (AttendanceSystem.present_students s3) "Bob" = Some (1000 + 31)
    ∧ (∀ delta timestamp u ns : Z,
         (0 ≤ delta ≤ 30)%Z → 0 ≤ u < 1000000 →
         AttendanceSystem.update_attendance_record s1 "Bob" timestamp
           ((1000 + delta) * 1000000 + u) ns = inr s1).
Proof.
  apply (dedup_window (AttendanceSystem.init ∅) "Bob" 1000 250000 250000 250000
           1000300000 1005300000 1031300000); try reflexivity; lia.
Defined.

(** C10: with duplicate prevention on, a sighting of a person already
    present is ignored exactly when the seconds component of the time since
    the stored timestamp, whole days left out, is at most 30.  A sighting
    one day and ten seconds after the stored timestamp, 86410 seconds later,
    is ignored: the state and the stored timestamp stay as they are. *)
Theorem dedup_seconds_component (self : AttendanceSystem.app) (name : string)
    (timestamp now now_save stored : Z) :
  AttendanceSystem.duplicate_prevention self = true →
  PyDict.get (AttendanceSystem.present_students self) name = Some stored →
  (AttendanceSystem.update_attendance_record self name timestamp now now_save
   = inr self
   ↔ (Datetime.timedelta_seconds now (Datetime.strptime stored) ≤ 30)%Z)
  ∧ (∀ u timestamp' now_save' : Z,
       0 ≤ u < 1000000 →
       Datetime.elapsed_seconds ((stored + 86400 + 10) * 1000000 + u)
         (Datetime.strptime stored) = 86410
       ∧ AttendanceSystem.update_attendance_record self name timestamp'
           ((stored + 86400 + 10) * 1000000 + u) now_save' = inr self).
Proof.
  intros Hdup Hg. split.
  - pose proof (should_record_present self name now stored Hdup Hg) as Hs.
    destruct (AttendanceSystem.should_record self name now) eqn:E.
    + symmetry in Hs. apply Z.ltb_lt in Hs. split; [|lia].
      intros H. by apply update_recorded_changes in H.
    + symmetry in Hs. apply Z.ltb_ge in Hs. split; [done|].
      intros _. by apply update_ignored.
  - intros u timestamp' now_save' Hu.
    destruct (timedelta_seconds_next_day stored 10 u) as [Htd Hel]; [lia|lia|].
    split; [exact Hel|]. apply update_ignored.
    rewrite (should_record_present self name _ stored Hdup Hg), Htd. done.
Qed.

Lemma dedup_seconds_component_witness :
  (AttendanceSystem.update_attendance_record
     {| AttendanceSystem.present_students := [("Bob", 1000)];
        AttendanceSystem.known_face_names := ["Bob"];
        AttendanceSystem.duplicate_prevention := true;
        AttendanceSystem.attendance_manager :=
          {| AttendanceManager.files := ∅; AttendanceManager.writes := [] |} |}
     "Bob" 87410 87410000000 87410000000
   = inr {| AttendanceSystem.present_students := [("Bob", 1000)];
            AttendanceSystem.known_face_names := ["Bob"];
            AttendanceSystem.duplicate_prevention := true;
            AttendanceSystem.attendance_manager :=
              {| AttendanceManager.files := ∅; AttendanceManager.writes := [] |} |}
   ↔ (Datetime.timedelta_seconds 87410000000 (Datetime.strptime 1000) ≤ 30)%Z)
  ∧ (∀ u timestamp' now_save' : Z,
       0 ≤ u < 1000000 →
       Datetime.elapsed_seconds ((1000 + 86400 + 10) * 1000000 + u)
         (Datetime.strptime 1000) = 86410
       ∧ AttendanceSystem.update_attendance_record
           {| AttendanceSystem.present_students := [("Bob", 1000)];
              AttendanceSystem.known_face_names := ["Bob"];
              AttendanceSystem.duplicate_prevention := true;
              AttendanceSystem.attendance_manager :=
                {| AttendanceManager.files := ∅; AttendanceManager.writes := [] |} |}
           "Bob" timestamp'
           ((1000 + 86400 + 10) * 1000000 + u) now_save'
         = inr {| AttendanceSystem.present_students := [("Bob", 1000)];
                  AttendanceSystem.known_face_names := ["Bob"];
                  AttendanceSystem.duplicate_prevention := true;
                  AttendanceSystem.attendance_manager :=
                    {| AttendanceManager.files := ∅;
                       AttendanceManager.writes := [] |} |}).
Proof.
  apply (dedup_seconds_component
           {| AttendanceSystem.present_students := [("Bob", 1000)];
              AttendanceSystem.known_face_names := ["Bob"];
              AttendanceSystem.duplicate_prevention := true;
              AttendanceSystem.attendance_manager :=
                {| AttendanceManager.files := ∅; AttendanceManager.writes := [] |} |}
           "Bob" 87410 87410000000 87410000000 1000); reflexivity.
Defined.

(** ** Saving in place *)

Lemma append_cons (x : ascii) (a b : string) :
  String.append (String x a) b = String x (String.append a b).
Proof. reflexivity. Qed.

Lemma append_assoc (a b c : string) :
  String.append (String.append a b) c = String.append a (String.append b c).
Proof.
  induction a as [|x a IH]; [done|]. by rewrite !append_cons, IH.
Qed.

Lemma append_empty_r (a : string) : String.append a "" = a.
Proof. induction a as [|x a IH]; [done|]. by rewrite append_cons, IH. Qed.

Lemma append_inj_l (a b c : string) :
  String.append a b = String.append a c → b = c.
Proof.
  induction a as [|x a IH]; [done|]. rewrite !append_cons. intros [= H]. auto.
Qed.

Lemma prefix_append (a b : string) : String.prefix a (String.append a b) = true.
Proof.
  induction a as [|x a IH]; [by destruct b|].
  rewrite append_cons. simpl. destruct (ascii_dec x x); [exact IH|done].
Qed.

Lemma contents_app (l1 l2 : list string) :
  Persistence.contents (l1 ++ l2)
  = String.append (Persistence.contents l1) (Persistence.contents l2).
Proof.
  unfold Persistence.contents. induction l1 as [|x l1 IH]; simpl; [done|].
  by rewrite IH, append_assoc.
Qed.

Lemma prefix_contents_take (n : nat) (chunks : list string) :
  String.prefix (Persistence.contents (take n chunks)) (Persistence.contents chunks)
  = true.
Proof.
  rewrite <- (take_drop n chunks) at 2. rewrite contents_app. apply prefix_append.
Qed.

(** The two files of a dataset are different files. *)
Lemma encoding_file_ne_info_file (dataset_path : string) :
  Persistence.encoding_file dataset_path ≠ Persistence.info_file dataset_path.
Proof.
  unfold Persistence.encoding_file, Persistence.info_file, Persistence.path_join.
  destruct (String.eqb dataset_path ""); [done|].
  destruct (LoadStudents.endswith dataset_path "/"); intros H.
  - apply append_inj_l in H. discriminate H.
  - apply append_inj_l in H. discriminate H.
Qed.

Lemma run_writes (path : string) (chunks : list string)
    (fs : Persistence.filesystem) (written : string) :
  fs !! path = Some written →
  Persistence.run_ops fs (map (Persistence.Write path) chunks)
  = <[path := String.append written (Persistence.contents chunks)]> fs.
Proof.
  unfold Persistence.run_ops.
  revert fs written. induction chunks as [|c chunks IH]; intros fs written Hl; simpl.
  - rewrite append_empty_r. symmetry. by apply insert_id.
  - rewrite Hl. rewrite (IH _ (String.append written c)).
    + by rewrite insert_insert_eq, append_assoc.
    + apply lookup_insert_eq.
Qed.

(** A completed dump leaves the file with the whole serialisation. *)
Lemma run_dump (path : string) (chunks : list string) (fs : Persistence.filesystem) :
  Persistence.run_ops fs (Persistence.dump path chunks)
  = <[path := Persistence.contents chunks]> fs.
Proof.
  unfold Persistence.dump.
  change (Persistence.run_ops fs (Persistence.Open_w path :: ?l))
    with (Persistence.run_ops (<[path := ""]> fs) l).
  rewrite (run_writes path chunks _ ""); [|apply lookup_insert_eq].
  by rewrite insert_insert_eq.
Qed.

Lemma take_dump (n : nat) (path : string) (chunks : list string) :
  take (S n) (Persistence.dump path chunks) = Persistence.dump path (take n chunks).
Proof. unfold Persistence.dump. simpl. by rewrite <- fmap_take. Qed.

Lemma lookup_run_ops_other (ops : list Persistence.op) (fs : Persistence.filesystem)
    (path : string) :
  Forall (λ o, Persistence.op_path o ≠ path) ops →
  Persistence.run_ops fs ops !! path = fs !! path.
Proof.
  unfold Persistence.run_ops. intros H. revert fs.
  induction H as [|o ops Ho _ IH]; intros fs; simpl; [done|].
  rewrite IH. destruct o as [p|p c]; simpl in *.
  - by apply lookup_insert_ne.
  - destruct (fs !! p); [by apply lookup_insert_ne|done].
Qed.

Lemma dump_paths (path : string) (chunks : list string) :
  Forall (λ o, Persistence.op_path o = path) (Persistence.dump path chunks).
Proof.
  unfold Persistence.dump. constructor; [done|].
  apply Forall_forall. intros o Ho.
  apply list_elem_of_fmap in Ho as (c & -> & _). done.
Qed.

(** C8 (as stated): a save that stops part-way leaves a gallery file that is
    neither the old one nor the new one.  A dataset "ds" whose gallery file
    holds "OLD" is saved again with the gallery "NEW": stopped after the
    first step, the gallery file is empty; stopped after the gallery is
    written, the gallery is new and the metadata still old.  The attendance
    file is written the same way: stopped after the first step, it is
    empty. *)
Lemma save_interrupted_partial :
  Persistence.load
    (Persistence.save_encoding_set_interrupted 1
       {["ds/encodings.pkl" := "OLD"; "ds/info.json" := "{old}"]} "ds"
       ["NEW"] ["{new}"]) "ds" = Some ""
  ∧ Persistence.load
      {["ds/encodings.pkl" := "OLD"; "ds/info.json" := "{old}"]} "ds"
    = Some "OLD"
  ∧ Persistence.contents ["NEW"] = "NEW"
  ∧ Persistence.load
      (Persistence.save_encoding_set_interrupted 2
         {["ds/encodings.pkl" := "OLD"; "ds/info.json" := "{old}"]} "ds"
         ["NEW"] ["{new}"]) "ds" = Some "NEW"
  ∧ Persistence.save_encoding_set_interrupted 2
      {["ds/encodings.pkl" := "OLD"; "ds/info.json" := "{old}"]} "ds"
      ["NEW"] ["{new}"] !! Persistence.info_file "ds" = Some "{old}"
  ∧ Persistence.run_ops {["attendance_2024-01-01.json" := "{old}"]}
      (take 1 (Persistence.save_attendance_ops "attendance_2024-01-01.json"
                 ["{new}"]))
      !! "attendance_2024-01-01.json" = Some "".
Proof. repeat split; vm_compute; reflexivity. Qed.

(** C8 (amended): the save writes the gallery file and then the metadata
    file in place, with no temporary file and no rename.  A save that runs
    to its end leaves both files with their whole new content and every
    other file as it was; a save that stops after one step or more leaves a
    gallery file holding a prefix of the new content, which may be empty or
    partial. *)
Theorem save_encoding_set_in_place (fs : Persistence.filesystem) (dataset_path : string)
    (pickled info_json : list string) :
  Persistence.load (Persistence.save_encoding_set fs dataset_path pickled info_json)
    dataset_path = Some (Persistence.contents pickled)
  ∧ Persistence.save_encoding_set fs dataset_path pickled info_json
      !! Persistence.info_file dataset_path
    = Some (Persistence.contents info_json)
  ∧ (∀ path,
       path ∉ [Persistence.encoding_file dataset_path;
               Persistence.info_file dataset_path] →
       Persistence.save_encoding_set fs dataset_path pickled info_json !! path
       = fs !! path)
  ∧ Forall (λ o, Persistence.op_path o ∈
                   [Persistence.encoding_file dataset_path;
                    Persistence.info_file dataset_path])
      (Persistence.save_encoding_set_ops dataset_path pickled info_json)
  ∧ (∀ n, ∃ written,
       Persistence.load
         (Persistence.save_encoding_set_interrupted (S n) fs dataset_path
            pickled info_json) dataset_path = Some written
       ∧ String.prefix written (Persistence.contents pickled) = true).
Proof.
  pose proof (encoding_file_ne_info_file dataset_path) as Hne.
  unfold Persistence.load, Persistence.save_encoding_set,
    Persistence.save_encoding_set_interrupted, Persistence.save_encoding_set_ops.
  split; [|split; [|split; [|split]]].
  - unfold Persistence.run_ops. rewrite fold_left_app.
    fold (Persistence.run_ops fs (Persistence.dump (Persistence.encoding_file dataset_path) pickled)).
    rewrite run_dump.
    match goal with |- fold_left _ ?o ?f !! _ = _ =>
      change (Persistence.run_ops f o !! Persistence.encoding_file dataset_path
              = Some (Persistence.contents pickled)) end.
    rewrite run_dump, lookup_insert_ne by done. apply lookup_insert_eq.
  - unfold Persistence.run_ops. rewrite fold_left_app.
    match goal with |- fold_left _ ?o ?f !! _ = _ =>
      change (Persistence.run_ops f o !! Persistence.info_file dataset_path
              = Some (Persistence.contents info_json)) end.
    rewrite run_dump. apply lookup_insert_eq.
  - intros path Hp. apply lookup_run_ops_other.
    apply Forall_app. split.
    + eapply Forall_impl; [apply dump_paths|]. simpl. intros o ->.
      intros <-. apply Hp. apply elem_of_cons. by left.
    + eapply Forall_impl; [apply dump_paths|]. simpl. intros o ->.
      intros <-. apply Hp. apply elem_of_cons. right. apply elem_of_cons. by left.
  - apply Forall_app. split.
    + eapply Forall_impl; [apply dump_paths|]. simpl. intros o ->.
      apply elem_of_cons. by left.
    + eapply Forall_impl; [apply dump_paths|]. simpl. intros o ->.
      apply elem_of_cons. right. apply elem_of_cons. by left.
  - intros n. exists (Persistence.contents (take n pickled)).
    split; [|apply prefix_contents_take].
    rewrite take_app. unfold Persistence.run_ops. rewrite fold_left_app.
    match goal with |- fold_left _ ?o ?f !! _ = _ =>
      change (Persistence.run_ops f o !! Persistence.encoding_file dataset_path
              = Some (Persistence.contents (take n pickled))) end.
    rewrite lookup_run_ops_other.
    + rewrite take_dump.
      match goal with |- fold_left _ ?o ?f !! _ = _ =>
        change (Persistence.run_ops f o !! Persistence.encoding_file dataset_path
                = Some (Persistence.contents (take n pickled))) end.
      rewrite run_dump. apply lookup_insert_eq.
    + apply Forall_take. eapply Forall_impl; [apply dump_paths|].
      simpl. intros o ->. done.
Qed.
(** * Further properties *)

(** ** Daily records: keeping, replacing and clearing *)

(** X1: saving the record of one day leaves the record of every other day
    as it was. *)
Theorem save_attendance_other_day (self : AttendanceManager.store)
    (dt other : Z) (present all : list string) :
  Datetime.strftime_date dt ≠ Datetime.strftime_date other →
  ∃ self',
    AttendanceManager.save_attendance self dt present all = inr self'
    ∧ AttendanceManager.get_attendance self' other
      = AttendanceManager.get_attendance self other.
Proof.
  intros Hne.
  destruct (save_attendance_returns self dt present all) as (r & _ & ->).
  eexists. split; [done|].
  unfold AttendanceManager.get_attendance. simpl.
  by apply lookup_insert_ne.
Qed.

Lemma save_attendance_other_day_witness :
  ∃ self',
    AttendanceManager.save_attendance
      {| AttendanceManager.files := ∅; AttendanceManager.writes := [] |}
      86400000000 ["A"] ["A"; "B"] = inr self'
    ∧ AttendanceManager.get_attendance self' 5
      = AttendanceManager.get_attendance
          {| AttendanceManager.files := ∅; AttendanceManager.writes := [] |} 5.
Proof.
  apply (save_attendance_other_day
           {| AttendanceManager.files := ∅; AttendanceManager.writes := [] |}
           86400000000 5 ["A"] ["A"; "B"]).
  vm_compute. discriminate.
Defined.

(** X2: two saves on the same day keep one record, the second: the file is
    rewritten with the full state, nothing of the first save is left. *)
Theorem save_attendance_same_day (self : AttendanceManager.store)
    (dt1 dt2 : Z) (present1 all1 present2 all2 : list string) :
  Datetime.strftime_date dt1 = Datetime.strftime_date dt2 →
  ∃ self1 self2 r,
    AttendanceManager.save_attendance self dt1 present1 all1 = inr self1
    ∧ AttendanceManager.save_attendance self1 dt2 present2 all2 = inr self2
    ∧ AttendanceManager.save_attendance self dt2 present2 all2
      = inr {| AttendanceManager.files := AttendanceManager.files self2;
               AttendanceManager.writes :=
                 Datetime.strftime_date dt2 :: AttendanceManager.writes self |}
    ∧ AttendanceManager.get_attendance self2 dt1 = Some r
    ∧ AttendanceManager.present_students r = present2
    ∧ AttendanceManager.all_students r = all2.
Proof.
  intros Hday.
  destruct (save_attendance_returns self dt1 present1 all1) as (r1 & _ & E1).
  match type of E1 with _ = inr ?s => set (s1 := s) in * end.
  destruct (save_attendance_returns s1 dt2 present2 all2) as (r2 & Hr2 & E2).
  destruct (save_attendance_returns self dt2 present2 all2) as (r2' & Hr2' & E2').
  assert (r2' = r2) as -> by congruence.
  match type of E2 with _ = inr ?s => exists s1, s, r2 end.
  split; [exact E1|]. split; [exact E2|].
  rewrite build_attendance_data_returns in Hr2. inversion Hr2 as [Er].
  unfold AttendanceManager.get_attendance. simpl.
  rewrite Hday, insert_insert_eq, lookup_insert_eq.
  split; [rewrite E2'; by rewrite Er|]. by rewrite Er.
Qed.

Lemma save_attendance_same_day_witness :
  ∃ self1 self2 r,
    AttendanceManager.save_attendance
      {| AttendanceManager.files := ∅; AttendanceManager.writes := [] |}
      10 ["A"] ["A"; "B"] = inr self1
    ∧ AttendanceManager.save_attendance self1 20 ["A"; "B"] ["A"; "B"] = inr self2
    ∧ AttendanceManager.save_attendance
        {| AttendanceManager.files := ∅; AttendanceManager.writes := [] |}
        20 ["A"; "B"] ["A"; "B"]
      = inr {| AttendanceManager.files := AttendanceManager.files self2;
               AttendanceManager.writes :=
                 Datetime.strftime_date 20
                 :: AttendanceManager.writes
                      {| AttendanceManager.files := ∅;
                         AttendanceManager.writes := [] |} |}
    ∧ AttendanceManager.get_attendance self2 10 = Some r
    ∧ AttendanceManager.present_students r = ["A"; "B"]
    ∧ AttendanceManager.all_students r = ["A"; "B"].
Proof.
  apply (save_attendance_same_day
           {| AttendanceManager.files := ∅; AttendanceManager.writes := [] |}
           10 20 ["A"] ["A"; "B"] ["A"; "B"] ["A"; "B"]).
  reflexivity.
Defined.

(** X3: [clear_attendance] answers true exactly when the day had a record;
    afterwards the day has none, the other days are untouched, and a second
    clear answers false and changes nothing. *)
Theorem clear_attendance_spec (self : AttendanceManager.store) (dt : Z) :
  ((AttendanceManager.clear_attendance self dt).2 = true
   ↔ is_Some (AttendanceManager.get_attendance self dt))
  ∧ AttendanceManager.get_attendance
      (AttendanceManager.clear_attendance self dt).1 dt = None
  ∧ (∀ other,
       Datetime.strftime_date other ≠ Datetime.strftime_date dt →
       AttendanceManager.get_attendance
         (AttendanceManager.clear_attendance self dt).1 other
       = AttendanceManager.get_attendance self other)
  ∧ AttendanceManager.clear_attendance
      (AttendanceManager.clear_attendance self dt).1 dt
    = ((AttendanceManager.clear_attendance self dt).1, false)
  ∧ AttendanceManager.writes (AttendanceManager.clear_attendance self dt).1
    = AttendanceManager.writes self.
Proof.
  unfold AttendanceManager.clear_attendance, AttendanceManager.get_attendance.
  destruct (AttendanceManager.files self !! Datetime.strftime_date dt) as [r|] eqn:E;
    simpl.
  - split; [split; [by eexists|done]|].
    split; [apply lookup_delete_eq|].
    split; [intros other Hne; by apply lookup_delete_ne|].
    split; [|done]. by rewrite lookup_delete_eq.
  - split; [split; [done|by intros [? ?]]|].
    split; [done|]. split; [done|]. split; [|done]. by rewrite E.
Qed.

(** X4: a save followed by a clear of the same day leaves no record for the
    day, whatever was stored before, and the clear reports that it removed
    one. *)
Theorem save_then_clear (self : AttendanceManager.store) (dt dt' : Z)
    (present all : list string) :
  Datetime.strftime_date dt = Datetime.strftime_date dt' →
  ∃ self',
    AttendanceManager.save_attendance self dt present all = inr self'
    ∧ (AttendanceManager.clear_attendance self' dt').2 = true
    ∧ AttendanceManager.files (AttendanceManager.clear_attendance self' dt').1
      = delete (Datetime.strftime_date dt) (AttendanceManager.files self).
Proof.
  intros Hday.
  destruct (save_attendance_returns self dt present all) as (r & _ & ->).
  eexists. split; [done|].
  unfold AttendanceManager.clear_attendance. simpl.
  rewrite <- Hday, lookup_insert_eq. simpl. split; [done|].
  apply delete_insert_eq.
Qed.

Lemma save_then_clear_witness :
  ∃ self',
    AttendanceManager.save_attendance
      {| AttendanceManager.files := ∅; AttendanceManager.writes := [] |}
      10 ["A"] ["A"; "B"] = inr self'
    ∧ (AttendanceManager.clear_attendance self' 20).2 = true
    ∧ AttendanceManager.files (AttendanceManager.clear_attendance self' 20).1
      = delete (Datetime.strftime_date 10)
          (AttendanceManager.files
             {| AttendanceManager.files := ∅; AttendanceManager.writes := [] |}).
Proof.
  apply (save_then_clear
           {| AttendanceManager.files := ∅; AttendanceManager.writes := [] |}
           10 20 ["A"] ["A"; "B"]).
  reflexivity.
Defined.

(** ** Daily records: the counts shown by the analytics window *)

Lemma length_absent_students (present all : list string) :
  NoDup all → NoDup present → present ⊆ all →
  length (elements ((list_to_set all : gset string) ∖ list_to_set present))
  = (length all - length present)%nat.
Proof.
  intros Ha Hp Hsub.
  change (size ((list_to_set all : gset string) ∖ list_to_set present)
          = (length all - length present)%nat).
  rewrite size_difference.
  - by rewrite !size_list_to_set.
  - intros x. rewrite !elem_of_list_to_set. apply Hsub.
Qed.

(** X5: for a record saved from duplicate-free lists in which every present
    student is a known student, the two absent counts of the analytics
    window agree (total minus present on the cards, the length of the
    absent list in the day view), and the stored percentage lies between 0
    and 100. *)
Theorem absent_counts_agree (d : Z) (present all : list string) :
  NoDup all → NoDup present → present ⊆ all →
  ∃ r,
    AttendanceManager.build_attendance_data d present all = inr r
    ∧ (AnalyticsUI.stat_cards r).1.2 = AnalyticsUI.absent_shown r
    ∧ (0 <= AnalyticsUI.absent_shown r)%Z
    ∧ (0 <= AttendanceManager.attendance_percentage r)%Q
    ∧ (AttendanceManager.attendance_percentage r <= 100)%Q.
Proof.
  intros Ha Hp Hsub. rewrite build_attendance_data_returns. eexists.
  split; [done|].
  assert (Hlen : (length present ≤ length all)%nat).
  { apply submseteq_length, NoDup_submseteq; [done|]. apply Hsub. }
  unfold AnalyticsUI.stat_cards, AnalyticsUI.absent_shown. simpl.
  rewrite length_absent_students by done.
  split; [lia|]. split; [lia|].
  destruct all as [|a all].
  - split; [apply Qle_refl|done].
  - set (n := length (a :: all)) in *. set (p := length present) in *.
    assert (Hn : (0 < inject_Z (Z.of_nat n))%Q).
    { unfold Qlt. simpl. subst n. simpl. lia. }
    split.
    + apply Qmult_le_0_compat; [|done].
      apply Qle_shift_div_l; [done|]. rewrite Qmult_0_l.
      unfold Qle. simpl. lia.
    + apply (Qle_trans _ (1 * 100)%Q); [|discriminate].
      apply Qmult_le_compat_r; [|done].
      apply Qle_shift_div_r; [done|]. rewrite Qmult_1_l.
      unfold Qle. simpl. lia.
Qed.

Lemma absent_counts_agree_witness :
  ∃ r,
    AttendanceManager.build_attendance_data 3 ["A"] ["A"; "B"; "C"] = inr r
    ∧ (AnalyticsUI.stat_cards r).1.2 = AnalyticsUI.absent_shown r
    ∧ (0 <= AnalyticsUI.absent_shown r)%Z
    ∧ (0 <= AttendanceManager.attendance_percentage r)%Q
    ∧ (AttendanceManager.attendance_percentage r <= 100)%Q.
Proof.
  apply (absent_counts_agree 3 ["A"] ["A"; "B"; "C"]).
  - compute_done.
  - apply NoDup_singleton.
  - intros x Hx. apply list_elem_of_singleton in Hx. subst.
    apply elem_of_cons. by left.
Defined.

(** ** Student statistics *)

Lemma student_rows_elem (self : AttendanceManager.store) (student_name : string)
    (start_date end_date : option Z) (row : Z * bool) :
  row ∈ AttendanceManager.student_rows self student_name start_date end_date
  ↔ ∃ k r, AttendanceManager.files self !! k = Some r
           ∧ AttendanceManager.in_range start_date end_date
               (AttendanceManager.date r) = true
           ∧ row = (AttendanceManager.date r,
                    bool_decide (student_name ∈ AttendanceManager.present_students r)).
Proof.
  unfold AttendanceManager.student_rows, AttendanceManager.listdir.
  rewrite list_elem_of_omap. split.
  - intros ([k r] & Hin & Hrow). apply elem_of_map_to_list in Hin.
    simpl in Hrow. exists k, r. split; [done|].
    destruct (AttendanceManager.in_range _ _ _); [|done].
    split; [done|]. by inversion Hrow.
  - intros (k & r & Hl & Hr & ->). exists (k, r).
    split; [by apply elem_of_map_to_list|]. simpl. by rewrite Hr.
Qed.

Lemma filter_none {A : Type} (P : A → Prop) `{!∀ x, Decision (P x)}
    (l : list A) :
  Forall (λ x, ¬ P x) l → filter P l = [].
Proof.
  induction 1 as [|x l Hx _ IH]; [done|]. by rewrite filter_cons_False.
Qed.

Lemma filter_all {A : Type} (P : A → Prop) `{!∀ x, Decision (P x)}
    (l : list A) :
  Forall P l → filter P l = l.
Proof.
  induction 1 as [|x l Hx _ IH]; [done|]. by rewrite filter_cons_True, IH.
Qed.

(** X6: [get_student_attendance_stats] answers [None] exactly when no
    record of the store is dated within the bounds (both inclusive).
    Otherwise the days present and absent add up to the total number of
    days, which is positive, neither is negative, the history has one row
    per day, and the percentage lies between 0 and 100. *)
Theorem student_stats_spec (self : AttendanceManager.store)
    (student_name : string) (start_date end_date : option Z) :
  match AttendanceManager.get_student_attendance_stats self student_name
          start_date end_date with
  | None =>
      ∀ k r, AttendanceManager.files self !! k = Some r →
             AttendanceManager.in_range start_date end_date
               (AttendanceManager.date r) = false
  | Some st =>
      (∃ k r, AttendanceManager.files self !! k = Some r
              ∧ AttendanceManager.in_range start_date end_date
                  (AttendanceManager.date r) = true)
      ∧ (0 < AttendanceManager.total_days st)%nat
      ∧ (Z.of_nat (AttendanceManager.days_present st)
         + AttendanceManager.days_absent st
         = Z.of_nat (AttendanceManager.total_days st))%Z
      ∧ (0 <= AttendanceManager.days_absent st)%Z
      ∧ length (AttendanceManager.attendance_history st)
        = AttendanceManager.total_days st
      ∧ (0 <= AttendanceManager.stats_attendance_percentage st)%Q
      ∧ (AttendanceManager.stats_attendance_percentage st <= 100)%Q
  end.
Proof.
  unfold AttendanceManager.get_student_attendance_stats.
  pose proof (student_rows_elem self student_name start_date end_date) as Hel.
  destruct (AttendanceManager.student_rows self student_name start_date end_date)
    as [|row rows] eqn:E; simpl.
  - intros k r Hl.
    destruct (AttendanceManager.in_range start_date end_date
                (AttendanceManager.date r)) eqn:Hr; [|done].
    exfalso. eapply not_elem_of_nil. apply Hel. by exists k, r.
  - assert (Hs : (length (filter (λ row0 : Z * bool, row0.2 = true) (row :: rows))
                  ≤ length (row :: rows))%nat) by apply length_filter.
    revert Hs.
    generalize (length (filter (λ row0 : Z * bool, row0.2 = true) (row :: rows))).
    intros s Hs. simpl in Hs.
    split.
    { destruct (proj1 (Hel row)) as (k & r & Hl & Hr & _).
      - apply elem_of_cons. by left.
      - by exists k, r. }
    split; [lia|]. split; [lia|]. split; [lia|]. split; [done|].
    assert (Hn : (0 < inject_Z (Z.of_nat (S (length rows))))%Q).
    { unfold Qlt. simpl. lia. }
    split.
    + apply Qmult_le_0_compat; [|done].
      apply Qle_shift_div_l; [done|]. rewrite Qmult_0_l.
      unfold Qle. simpl. lia.
    + apply (Qle_trans _ (1 * 100)%Q); [|discriminate].
      apply Qmult_le_compat_r; [|done].
      apply Qle_shift_div_r; [done|]. rewrite Qmult_1_l.
      unfold Qle. simpl. lia.
Qed.

(** X7: a student who is in no present list of the records within the
    bounds has no day present; one who is in all of them has no day
    absent. *)
Theorem student_stats_extremes (self : AttendanceManager.store)
    (student_name : string) (start_date end_date : option Z)
    (st : AttendanceManager.student_stats) :
  AttendanceManager.get_student_attendance_stats self student_name
    start_date end_date = Some st →
  ((∀ k r, AttendanceManager.files self !! k = Some r →
           AttendanceManager.in_range start_date end_date
             (AttendanceManager.date r) = true →
           student_name ∉ AttendanceManager.present_students r) →
   AttendanceManager.days_present st = 0%nat)
  ∧ ((∀ k r, AttendanceManager.files self !! k = Some r →
             AttendanceManager.in_range start_date end_date
               (AttendanceManager.date r) = true →
             student_name ∈ AttendanceManager.present_students r) →
     AttendanceManager.days_absent st = 0%Z
     ∧ AttendanceManager.days_present st = AttendanceManager.total_days st).
Proof.
  unfold AttendanceManager.get_student_attendance_stats.
  pose proof (student_rows_elem self student_name start_date end_date) as Hel.
  destruct (AttendanceManager.student_rows self student_name start_date end_date)
    as [|row rows] eqn:E; simpl; [done|].
  intros [= <-]. cbn [AttendanceManager.days_present AttendanceManager.days_absent
    AttendanceManager.total_days]. split.
  - intros Hno.
    rewrite filter_none; [done|].
    apply Forall_forall. intros x Hx.
    apply Hel in Hx as (k & r & Hl & Hr & ->). simpl.
    rewrite bool_decide_eq_true. by apply (Hno k r).
  - intros Hall.
    assert (Hf : filter (λ row0 : Z * bool, row0.2 = true) (row :: rows)
                 = row :: rows).
    { apply filter_all, Forall_forall. intros x Hx.
      apply Hel in Hx as (k & r & Hl & Hr & ->). simpl.
      rewrite bool_decide_eq_true. by apply (Hall k r). }
    rewrite Hf. split; [apply Z.sub_diag|done].
Qed.

Lemma student_stats_extremes_witness :
  ∃ st,
    AttendanceManager.get_student_attendance_stats
      {| AttendanceManager.files :=
           {[3 := {| AttendanceManager.date := 3;
                     AttendanceManager.present_students := ["A"];
                     AttendanceManager.all_students := ["A"; "B"];
                     AttendanceManager.absent_students := ["B"];
                     AttendanceManager.total_students := 2;
                     AttendanceManager.present_count := 1;
                     AttendanceManager.attendance_percentage := 50 |}]};
         AttendanceManager.writes := [] |} "A" (Some 3) (Some 3) = Some st
    ∧ AttendanceManager.days_absent st = 0%Z
    ∧ AttendanceManager.days_present st = AttendanceManager.total_days st.
Proof.
  eexists. split; [vm_compute; reflexivity|].
  refine (proj2 (student_stats_extremes
    {| AttendanceManager.files :=
         {[3 := {| AttendanceManager.date := 3;
                   AttendanceManager.present_students := ["A"];
                   AttendanceManager.all_students := ["A"; "B"];
                   AttendanceManager.absent_students := ["B"];
                   AttendanceManager.total_students := 2;
                   AttendanceManager.present_count := 1;
                   AttendanceManager.attendance_percentage := 50 |}]};
       AttendanceManager.writes := [] |} "A" (Some 3) (Some 3) _ _) _).
  - vm_compute. reflexivity.
  - intros k r Hl _. simpl in Hl. apply lookup_singleton_Some in Hl as [_ <-].
    simpl. apply elem_of_cons. by left.
Defined.

(** ** Trends *)

Lemma insert_by_perm {A : Type} (key : A → Z) (x : A) (l : list A) :
  AttendanceManager.insert_by key x l ≡ₚ x :: l.
Proof.
  induction l as [|y l IH]; simpl; [done|].
  destruct (key x <=? key y)%Z; [done|].
  rewrite IH. apply perm_swap.
Qed.

Lemma sort_by_perm {A : Type} (key : A → Z) (l : list A) :
  AttendanceManager.sort_by key l ≡ₚ l.
Proof.
  unfold AttendanceManager.sort_by. induction l as [|x l IH]; simpl; [done|].
  by rewrite insert_by_perm, IH.
Qed.

Lemma insert_by_sorted {A : Type} (key : A → Z) (x : A) (l : list A) :
  StronglySorted Z.le (map key l) →
  StronglySorted Z.le (map key (AttendanceManager.insert_by key x l)).
Proof.
  induction l as [|y l IH]; simpl; intros Hs.
  - repeat constructor.
  - apply StronglySorted_inv in Hs as [Hl Hy].
    destruct (key x <=? key y)%Z eqn:E; simpl.
    + apply Z.leb_le in E. constructor; [by constructor|].
      constructor; [done|]. eapply Forall_impl; [exact Hy|]. simpl. lia.
    + apply Z.leb_gt in E. constructor; [by apply IH|].
      assert (Hp : map key (AttendanceManager.insert_by key x l) ≡ₚ key x :: map key l).
      { by rewrite insert_by_perm. }
      rewrite Hp. constructor; [lia|done].
Qed.

Lemma sort_by_sorted {A : Type} (key : A → Z) (l : list A) :
  StronglySorted Z.le (map key (AttendanceManager.sort_by key l)).
Proof.
  unfold AttendanceManager.sort_by. induction l as [|x l IH]; simpl.
  - constructor.
  - by apply insert_by_sorted.
Qed.

Lemma period_data_elem (week month semester : string) (self : AttendanceManager.store)
    (period : option string) (clock : Z → Z) (row : Z * nat) :
  row ∈ AttendanceManager.period_data week month semester self period clock
  ↔ ∃ k r, AttendanceManager.files self !! k = Some r
           ∧ AttendanceManager.skipped week month semester period
               (Datetime.timedelta_days (clock k)
                  (Datetime.strptime_date (AttendanceManager.date r))) = false
           ∧ row = (AttendanceManager.date r, AttendanceManager.present_count r).
Proof.
  unfold AttendanceManager.period_data.
  rewrite sort_by_perm, list_elem_of_omap. split.
  - intros ([k r] & Hin & Hrow). rewrite sort_by_perm in Hin.
    apply elem_of_map_to_list in Hin. simpl in Hrow. exists k, r.
    split; [done|].
    destruct (AttendanceManager.skipped _ _ _ _ _); [done|].
    split; [done|]. by inversion Hrow.
  - intros (k & r & Hl & Hs & ->). exists (k, r). split.
    + rewrite sort_by_perm. by apply elem_of_map_to_list.
    + simpl. by rewrite Hs.
Qed.

(** X8: [get_attendance_trend] answers [None] exactly when every record is
    skipped by the period test.  Otherwise the dates come in ascending
    order with one count per date, and every date returned is the date of a
    stored record that is at most 7, 30 or 180 days old (by its own clock
    reading) for the periods week, month and semester, together with that
    record's present count. *)
Theorem attendance_trend_spec (self : AttendanceManager.store)
    (period : option string) (clock : Z → Z) :
  match AttendanceManager.get_attendance_trend self period clock with
  | None =>
      ∀ k r, AttendanceManager.files self !! k = Some r →
             AttendanceManager.skipped "week" "month" "semester" period
               (Datetime.timedelta_days (clock k)
                  (Datetime.strptime_date (AttendanceManager.date r))) = true
  | Some (dates, present_counts) =>
      dates ≠ []
      ∧ length dates = length present_counts
      ∧ StronglySorted Z.le dates
      ∧ ∀ i d c, dates !! i = Some d → present_counts !! i = Some c →
          ∃ k r, AttendanceManager.files self !! k = Some r
                 ∧ AttendanceManager.date r = d
                 ∧ AttendanceManager.present_count r = c
                 ∧ (period = Some "week" →
                    (Datetime.timedelta_days (clock k)
                       (Datetime.strptime_date d) <= 7)%Z)
                 ∧ (period = Some "month" →
                    (Datetime.timedelta_days (clock k)
                       (Datetime.strptime_date d) <= 30)%Z)
                 ∧ (period = Some "semester" →
                    (Datetime.timedelta_days (clock k)
                       (Datetime.strptime_date d) <= 180)%Z)
  end.
Proof.
  unfold AttendanceManager.get_attendance_trend.
  pose proof (period_data_elem "week" "month" "semester" self period clock) as Hel.
  pose proof (sort_by_sorted (@fst Z nat)) as Hsorted.
  unfold AttendanceManager.period_data in *.
  match goal with |- context [AttendanceManager.sort_by fst ?l] =>
    specialize (Hsorted l);
    destruct (AttendanceManager.sort_by fst l) as [|row rows] eqn:E end;
    cbn [AttendanceManager.truthy].
  - intros k r Hl.
    destruct (AttendanceManager.skipped _ _ _ _ _) eqn:Hs; [done|].
    exfalso. eapply not_elem_of_nil. apply Hel. by exists k, r.
  - split; [done|]. split; [by rewrite !length_map|].
    clear E.
    split; [exact Hsorted|].
    intros i d c Hd Hc.
    assert (Hrow : (row :: rows) !! i = Some (d, c)).
    { rewrite list_lookup_fmap in Hd. rewrite list_lookup_fmap in Hc.
      destruct ((row :: rows) !! i) as [[d' c']|]; simpl in *; congruence. }
    apply list_elem_of_lookup_2 in Hrow.
    apply Hel in Hrow as (k & r & Hl & Hs & [= -> ->]).
    exists k, r. split; [done|]. split; [done|]. split; [done|].
    unfold AttendanceManager.skipped in Hs.
    apply orb_false_elim in Hs as [Hs Hsem].
    apply orb_false_elim in Hs as [Hw Hm].
    split; [|split]; intros ->; simpl in *; by apply Z.ltb_ge.
Qed.

Lemma omap_total {A B : Type} (f : A → option B) (g : A → B) (l : list A) :
  (∀ x, f x = Some (g x)) → omap f l = map g l.
Proof.
  intros H. induction l as [|x l IH]; [done|].
  cbn [omap list_omap]. rewrite H. simpl. by rewrite <- IH.
Qed.

Lemma period_data_unfiltered (week month semester : string)
    (self : AttendanceManager.store) (period : option string) (clock : Z → Z) :
  AttendanceManager.period_is period week = false →
  AttendanceManager.period_is period month = false →
  AttendanceManager.period_is period semester = false →
  AttendanceManager.period_data week month semester self period clock
  = AttendanceManager.sort_by fst
      (map (λ f : Z * AttendanceManager.attendance_data,
              (AttendanceManager.date f.2, AttendanceManager.present_count f.2))
         (AttendanceManager.sort_by fst (AttendanceManager.listdir self))).
Proof.
  intros Hw Hm Hs. unfold AttendanceManager.period_data. f_equal.
  apply omap_total. intros f.
  unfold AttendanceManager.skipped. by rewrite Hw, Hm, Hs.
Qed.

(** X9: a period name that [get_attendance_trend] does not compare with
    filters nothing: the answer is the one for no period at all, and its
    rows are the dates and present counts of all stored records.  This
    holds for "weekly" and "monthly", the names that
    [get_daily_attendance_counts] uses. *)
Theorem attendance_trend_unknown_period (self : AttendanceManager.store)
    (p : string) (clock : Z → Z) :
  p ≠ "week" → p ≠ "month" → p ≠ "semester" →
  AttendanceManager.get_attendance_trend self (Some p) clock
  = AttendanceManager.get_attendance_trend self None clock
  ∧ AttendanceManager.period_data "week" "month" "semester" self (Some p) clock
    ≡ₚ map (λ f : Z * AttendanceManager.attendance_data,
              (AttendanceManager.date f.2, AttendanceManager.present_count f.2))
         (map_to_list (AttendanceManager.files self)).
Proof.
  intros Hw Hm Hs.
  assert (Hp : ∀ name, p ≠ name →
            AttendanceManager.period_is (Some p) name = false).
  { intros name Hne. simpl. by apply String.eqb_neq. }
  unfold AttendanceManager.get_attendance_trend.
  rewrite (period_data_unfiltered _ _ _ self (Some p)) by auto.
  rewrite (period_data_unfiltered _ _ _ self None) by done.
  split; [done|].
  rewrite sort_by_perm. apply fmap_Permutation, sort_by_perm.
Qed.

Lemma attendance_trend_unknown_period_witness :
  AttendanceManager.get_attendance_trend
    {| AttendanceManager.files := ∅; AttendanceManager.writes := [] |}
    (Some "weekly") (λ _, 0)
  = AttendanceManager.get_attendance_trend
      {| AttendanceManager.files := ∅; AttendanceManager.writes := [] |}
      None (λ _, 0)
  ∧ AttendanceManager.period_data "week" "month" "semester"
      {| AttendanceManager.files := ∅; AttendanceManager.writes := [] |}
      (Some "weekly") (λ _, 0)
    ≡ₚ map (λ f : Z * AttendanceManager.attendance_data,
              (AttendanceManager.date f.2, AttendanceManager.present_count f.2))
         (map_to_list
            (AttendanceManager.files
               {| AttendanceManager.files := ∅; AttendanceManager.writes := [] |})).
Proof.
  apply (attendance_trend_unknown_period
           {| AttendanceManager.files := ∅; AttendanceManager.writes := [] |}
           "weekly" (λ _, 0)); discriminate.
Defined.

(** X10: [get_daily_attendance_counts] with the periods "weekly", "monthly"
    and "semester" returns the dates and counts that [get_attendance_trend]
    returns for "week", "month" and "semester", and two empty lists where
    the trend is [None]. *)
Theorem daily_counts_match_trend (self : AttendanceManager.store) (clock : Z → Z) :
  AttendanceManager.get_daily_attendance_counts self (Some "weekly") clock
  = default ([], [])
      (AttendanceManager.get_attendance_trend self (Some "week") clock)
  ∧ AttendanceManager.get_daily_attendance_counts self (Some "monthly") clock
    = default ([], [])
        (AttendanceManager.get_attendance_trend self (Some "month") clock)
  ∧ AttendanceManager.get_daily_attendance_counts self (Some "semester") clock
    = default ([], [])
        (AttendanceManager.get_attendance_trend self (Some "semester") clock).
Proof.
  unfold AttendanceManager.get_daily_attendance_counts,
    AttendanceManager.get_attendance_trend.
  assert (H1 : AttendanceManager.period_data "weekly" "monthly" "semester" self
                 (Some "weekly") clock
               = AttendanceManager.period_data "week" "month" "semester" self
                   (Some "week") clock) by reflexivity.
  assert (H2 : AttendanceManager.period_data "weekly" "monthly" "semester" self
                 (Some "monthly") clock
               = AttendanceManager.period_data "week" "month" "semester" self
                   (Some "month") clock) by reflexivity.
  assert (H3 : AttendanceManager.period_data "weekly" "monthly" "semester" self
                 (Some "semester") clock
               = AttendanceManager.period_data "week" "month" "semester" self
                   (Some "semester") clock) by reflexivity.
  rewrite H1, H2, H3.
  split; [|split];
    match goal with |- context [AttendanceManager.truthy ?l] => by destruct l end.
Qed.

Lemma today_minus (now n : Z) :
  Datetime.strftime_date (Datetime.minus_days now n)
  = (Datetime.strftime_date now - n)%Z.
Proof.
  unfold Datetime.strftime_date, Datetime.minus_days, Datetime.microseconds_per_day,
    Datetime.seconds_per_day, Datetime.microseconds_per_second.
  replace (now - n * (86400 * 1000000))%Z
    with (now + (- n) * (86400 * 1000000))%Z by lia.
  rewrite Z.div_add by lia. lia.
Qed.

Lemma days_since (now d : Z) :
  Datetime.timedelta_days now (Datetime.strptime_date d)
  = (Datetime.strftime_date now - d)%Z.
Proof.
  unfold Datetime.timedelta_days, Datetime.strptime_date, Datetime.strftime_date,
    Datetime.microseconds_per_day, Datetime.seconds_per_day,
    Datetime.microseconds_per_second.
  replace (now - d * (86400 * 1000000))%Z
    with (now + (- d) * (86400 * 1000000))%Z by lia.
  rewrite Z.div_add by lia. lia.
Qed.

(** X11: for each period of the analytics window, the date bounds given to
    the student statistics select a record date exactly when the trend of
    the mapped period keeps it and the date is not after today: a week
    covers today and the seven days before it, eight dates in all. *)
Theorem analytics_ranges_match_trend (now d : Z) :
  (AttendanceManager.in_range (AnalyticsUI.student_range "Weekly" now).1
     (AnalyticsUI.student_range "Weekly" now).2 d
   = negb (AttendanceManager.skipped "week" "month" "semester"
             (Some (AnalyticsUI.period_map "Weekly"))
             (Datetime.timedelta_days now (Datetime.strptime_date d)))
     && (d <=? Datetime.strftime_date now)%Z)
  ∧ (AttendanceManager.in_range (AnalyticsUI.student_range "Monthly" now).1
       (AnalyticsUI.student_range "Monthly" now).2 d
     = negb (AttendanceManager.skipped "week" "month" "semester"
               (Some (AnalyticsUI.period_map "Monthly"))
               (Datetime.timedelta_days now (Datetime.strptime_date d)))
       && (d <=? Datetime.strftime_date now)%Z)
  ∧ (AttendanceManager.in_range (AnalyticsUI.student_range "Semester" now).1
       (AnalyticsUI.student_range "Semester" now).2 d
     = negb (AttendanceManager.skipped "week" "month" "semester"
               (Some (AnalyticsUI.period_map "Semester"))
               (Datetime.timedelta_days now (Datetime.strptime_date d)))
       && (d <=? Datetime.strftime_date now)%Z)
  ∧ (AttendanceManager.in_range (AnalyticsUI.student_range "Weekly" now).1
       (AnalyticsUI.student_range "Weekly" now).2 d = true
     ↔ (Datetime.strftime_date now - 7 <= d <= Datetime.strftime_date now)%Z).
Proof.
  unfold AnalyticsUI.student_range, AnalyticsUI.period_map,
    AttendanceManager.in_range, AttendanceManager.skipped. simpl.
  rewrite !today_minus, days_since.
  set (today := Datetime.strftime_date now).
  split; [|split; [|split; [|split]]].
  - rewrite !orb_false_r. f_equal.
    destruct (7 <? today - d)%Z eqn:E; simpl.
    + apply Z.ltb_lt in E. apply Z.leb_gt. lia.
    + apply Z.ltb_ge in E. apply Z.leb_le. lia.
  - rewrite !orb_false_r. f_equal.
    destruct (30 <? today - d)%Z eqn:E; simpl.
    + apply Z.ltb_lt in E. apply Z.leb_gt. lia.
    + apply Z.ltb_ge in E. apply Z.leb_le. lia.
  - f_equal.
    destruct (180 <? today - d)%Z eqn:E; simpl.
    + apply Z.ltb_lt in E. apply Z.leb_gt. lia.
    + apply Z.ltb_ge in E. apply Z.leb_le. lia.
  - intros H. apply andb_true_iff in H as [H1 H2].
    apply Z.leb_le in H1. apply Z.leb_le in H2. lia.
  - intros [H1 H2]. apply andb_true_iff. split; apply Z.leb_le; lia.
Qed.

(** ** Dataset building: what a build returns *)

Lemma load_file_not_loaded (st : PyDict.dict (list LoadStudents.encoding) * nat)
    (f : LoadStudents.entry) :
  LoadStudents.loaded f = false → LoadStudents.load_file st f = st.
Proof.
  destruct f as [filename [e|]]; unfold LoadStudents.loaded, LoadStudents.load_file;
    simpl; destruct (LoadStudents.is_image filename); simpl; done.
Qed.

Lemma load_file_loaded_count (st : PyDict.dict (list LoadStudents.encoding) * nat)
    (f : LoadStudents.entry) :
  LoadStudents.loaded f = true → (LoadStudents.load_file st f).2 = S st.2.
Proof.
  destruct f as [filename [e|]]; unfold LoadStudents.loaded, LoadStudents.load_file;
    simpl; destruct (LoadStudents.is_image filename); simpl; done.
Qed.

Lemma fold_load_file_filter (directory : list LoadStudents.entry)
    (st : PyDict.dict (list LoadStudents.encoding) * nat) :
  fold_left LoadStudents.load_file directory st
  = fold_left LoadStudents.load_file
      (filter (λ f, LoadStudents.loaded f = true) directory) st.
Proof.
  revert st. induction directory as [|f directory IH]; intros st; [done|].
  simpl. destruct (LoadStudents.loaded f) eqn:E.
  - rewrite filter_cons_True by done. simpl. apply IH.
  - rewrite filter_cons_False by (by rewrite E).
    rewrite load_file_not_loaded by done. apply IH.
Qed.

Lemma fold_load_file_count (directory : list LoadStudents.entry)
    (st : PyDict.dict (list LoadStudents.encoding) * nat) :
  (fold_left LoadStudents.load_file directory st).2
  = (st.2 + length (filter (λ f, LoadStudents.loaded f = true) directory))%nat.
Proof.
  revert st. induction directory as [|f directory IH]; intros st; simpl; [lia|].
  rewrite IH. destruct (LoadStudents.loaded f) eqn:E.
  - rewrite filter_cons_True by done. rewrite load_file_loaded_count by done.
    simpl. lia.
  - rewrite filter_cons_False by (by rewrite E).
    by rewrite load_file_not_loaded.
Qed.

Lemma contribution_nonempty (name : string) (f : LoadStudents.entry) :
  LoadStudents.contribution name f ≠ []
  ↔ LoadStudents.loaded f = true ∧ LoadStudents.student_name f.1 = name.
Proof.
  destruct f as [filename image].
  unfold LoadStudents.contribution, LoadStudents.loaded. simpl.
  destruct (LoadStudents.is_image filename); simpl; [|split; [done|by intros [? _]]].
  destruct (String.eqb (LoadStudents.student_name filename) name) eqn:E.
  - apply String.eqb_eq in E. destruct image; split; try done. by intros [? _].
  - apply String.eqb_neq in E. split; [done|]. by intros [_ ?].
Qed.

Lemma encodings_of_nonempty (name : string) (directory : list LoadStudents.entry) :
  LoadStudents.encodings_of name directory ≠ []
  ↔ ∃ f, f ∈ directory ∧ LoadStudents.loaded f = true
         ∧ LoadStudents.student_name f.1 = name.
Proof.
  unfold LoadStudents.encodings_of.
  induction directory as [|f directory IH]; simpl.
  - split; [done|]. intros (f & Hf & _). by apply not_elem_of_nil in Hf.
  - split.
    + intros H.
      destruct (LoadStudents.contribution name f) as [|c cs] eqn:E.
      * simpl in H. apply IH in H as (g & Hg & Hl & Hn).
        exists g. split; [apply elem_of_cons; by right|done].
      * exists f. split; [apply elem_of_cons; by left|].
        apply contribution_nonempty. by rewrite E.
    + intros (g & Hg & Hl & Hn) H. apply app_eq_nil in H as [H1 H2].
      apply elem_of_cons in Hg as [->|Hg].
      * by apply (contribution_nonempty name f).
      * apply IH; [|done]. by exists g.
Qed.

(** The two lists of a build that returns: the labels in the order of their
    first loaded file, and the mean of each label's encodings at the same
    position. *)
Lemma run_inr (directory : list LoadStudents.entry) (g : LoadStudents.dataset) :
  LoadStudents.run directory = inr g →
  LoadStudents.known_face_names g
  = PyDict.keys (LoadStudents.load_files directory).1
  ∧ Forall2 (λ it m, LoadStudents.np_mean it.2 = inr m)
      (LoadStudents.load_files directory).1 (LoadStudents.known_face_encodings g)
  ∧ LoadStudents.loaded_count g = (LoadStudents.load_files directory).2.
Proof.
  unfold LoadStudents.run.
  destruct (LoadStudents.load_files directory) as [se c]. simpl.
  destruct (LoadStudents.average se [] []) as [e|r] eqn:A; simpl; [done|].
  intros [= <-]. simpl.
  apply average_inr in A as (ms & -> & HF). simpl. done.
Qed.

Lemma run_known_name (directory : list LoadStudents.entry)
    (g : LoadStudents.dataset) (name : string) :
  LoadStudents.run directory = inr g →
  name ∈ LoadStudents.known_face_names g
  ↔ ∃ f, f ∈ directory ∧ LoadStudents.loaded f = true
         ∧ LoadStudents.student_name f.1 = name.
Proof.
  intros Hr. apply run_inr in Hr as (-> & _ & _).
  rewrite <- encodings_of_nonempty.
  pose proof (dict_get_None (LoadStudents.load_files directory).1 name) as Hn.
  rewrite get_load_files in Hn.
  destruct (LoadStudents.encodings_of name directory) as [|x xs].
  - split; [|done]. intros Hin. exfalso. by apply (proj1 Hn).
  - split; [done|]. intros _.
    destruct (decide (name ∈ PyDict.keys (LoadStudents.load_files directory).1))
      as [Hin|Hnin]; [done|].
    by apply Hn in Hnin.
Qed.

(** X12: a build that returns gives two lists of the same length, with no
    label twice, so that the [student_count] written to [info.json] is the
    number of gallery entries; the labels are exactly the labels of the
    loaded files (images that yield an encoding), [loaded_count] is the
    number of those files and is at least the number of labels. *)
Theorem dataset_invariants (directory : list LoadStudents.entry)
    (g : LoadStudents.dataset) :
  LoadStudents.run directory = inr g →
  length (LoadStudents.known_face_encodings g)
  = length (LoadStudents.known_face_names g)
  ∧ NoDup (LoadStudents.known_face_names g)
  ∧ LoadStudents.student_count (LoadStudents.known_face_names g)
    = length (LoadStudents.known_face_names g)
  ∧ LoadStudents.loaded_count g
    = length (filter (λ f, LoadStudents.loaded f = true) directory)
  ∧ (∀ name, name ∈ LoadStudents.known_face_names g
             ↔ ∃ f, f ∈ directory ∧ LoadStudents.loaded f = true
                    ∧ LoadStudents.student_name f.1 = name)
  ∧ (length (LoadStudents.known_face_names g) ≤ LoadStudents.loaded_count g)%nat.
Proof.
  intros Hr. pose proof (run_inr _ _ Hr) as (Hn & HF & Hc).
  assert (Hnd : NoDup (LoadStudents.known_face_names g)).
  { rewrite Hn. apply keys_load_files_NoDup. }
  assert (Hcount : LoadStudents.loaded_count g
            = length (filter (λ f, LoadStudents.loaded f = true) directory)).
  { rewrite Hc. unfold LoadStudents.load_files. by rewrite fold_load_file_count. }
  split.
  { apply Forall2_length in HF. rewrite Hn. unfold PyDict.keys.
    by rewrite length_map. }
  split; [done|].
  split; [unfold LoadStudents.student_count; by apply size_list_to_set|].
  split; [done|].
  split; [intros name; by apply run_known_name|].
  rewrite Hcount.
  rewrite <- (length_map (λ f : LoadStudents.entry, LoadStudents.student_name f.1)
                (filter (λ f, LoadStudents.loaded f = true) directory)).
  apply submseteq_length, NoDup_submseteq; [done|].
  intros name Hin. apply (run_known_name _ _ _ Hr) in Hin as (f & Hf & Hl & <-).
  apply (list_elem_of_fmap_2 (λ f : LoadStudents.entry, LoadStudents.student_name f.1)).
  by apply list_elem_of_filter.
Qed.

Lemma dataset_invariants_witness :
  ∃ g,
    LoadStudents.run
      [("A_1.jpg", Some [1%Q; 2%Q]); ("notes.txt", None);
       ("B_1.png", Some [0%Q; 0%Q]); ("A_2.jpg", Some [3%Q; 5%Q]);
       ("C_1.jpg", None)] = inr g
    ∧ LoadStudents.known_face_names g = ["A"; "B"]
    ∧ LoadStudents.loaded_count g = 3%nat
    ∧ length (LoadStudents.known_face_encodings g)
      = length (LoadStudents.known_face_names g)
    ∧ NoDup (LoadStudents.known_face_names g).
Proof.
  eexists. split; [vm_compute; reflexivity|].
  split; [reflexivity|]. split; [reflexivity|].
  refine (let H := dataset_invariants
    [("A_1.jpg", Some [1%Q; 2%Q]); ("notes.txt", None);
     ("B_1.png", Some [0%Q; 0%Q]); ("A_2.jpg", Some [3%Q; 5%Q]);
     ("C_1.jpg", None)] _ _ in conj (proj1 H) (proj1 (proj2 H))).
  vm_compute. reflexivity.
Defined.

(** X13: files that are not loaded (no image extension, unreadable, no face
    found) have no effect on a build: the result is that of building from
    the loaded files alone. *)
Theorem run_ignores_unloaded (directory : list LoadStudents.entry) :
  LoadStudents.run directory
  = LoadStudents.run (filter (λ f, LoadStudents.loaded f = true) directory).
Proof.
  unfold LoadStudents.run, LoadStudents.load_files.
  by rewrite fold_load_file_filter.
Qed.

Lemma run_stored_vector (directory : list LoadStudents.entry)
    (g : LoadStudents.dataset) (name : string) :
  LoadStudents.run directory = inr g →
  match LoadStudents.encodings_of name directory with
  | [] => LoadStudents.stored_vector g name = None
  | e :: es => ∃ m, LoadStudents.np_mean (e :: es) = inr m
                    ∧ LoadStudents.stored_vector g name = Some m
  end.
Proof.
  intros Hr. pose proof (run_inr _ _ Hr) as (Hn & HF & _).
  pose proof (lookup_label_means _ _ name HF) as L.
  rewrite get_load_files in L. unfold LoadStudents.stored_vector.
  rewrite Hn. unfold PyDict.keys.
  by destruct (LoadStudents.encodings_of name directory).
Qed.

(** X14: in a build that returns, the vector stored for a label is the mean
    of the encodings of exactly the loaded files carrying that label, in
    the order of the listing; a label that no loaded file carries has no
    stored vector. *)
Theorem stored_vector_is_mean (directory : list LoadStudents.entry)
    (g : LoadStudents.dataset) (name : string) :
  LoadStudents.run directory = inr g →
  (LoadStudents.stored_vector g name = None
   ↔ LoadStudents.encodings_of name directory = [])
  ∧ (∀ v, LoadStudents.stored_vector g name = Some v
          ↔ LoadStudents.encodings_of name directory ≠ []
            ∧ LoadStudents.np_mean (LoadStudents.encodings_of name directory)
              = inr v).
Proof.
  intros Hr. pose proof (run_stored_vector _ _ name Hr) as H.
  destruct (LoadStudents.encodings_of name directory) as [|e es].
  - rewrite H. split; [done|]. intros v. split; [done|]. by intros [? _].
  - destruct H as (m & Hm & ->). split; [done|]. intros v. rewrite Hm. split.
    + intros [= ->]. done.
    + intros [_ [= ->]]. done.
Qed.

Lemma stored_vector_is_mean_witness :
  ∃ g,
    LoadStudents.run
      [("A_1.jpg", Some [1%Q; 2%Q]); ("A_2.jpg", Some [3%Q; 5%Q])] = inr g
    ∧ (LoadStudents.stored_vector g "B" = None
       ↔ LoadStudents.encodings_of "B"
           [("A_1.jpg", Some [1%Q; 2%Q]); ("A_2.jpg", Some [3%Q; 5%Q])] = []).
Proof.
  eexists. split; [vm_compute; reflexivity|].
  refine (proj1 (stored_vector_is_mean
    [("A_1.jpg", Some [1%Q; 2%Q]); ("A_2.jpg", Some [3%Q; 5%Q])] _ "B" _)).
  vm_compute. reflexivity.
Defined.

Lemma np_mean_single (e : LoadStudents.encoding) :
  ∃ v, LoadStudents.np_mean [e] = inr v ∧ LoadStudents.vec_eq v e.
Proof.
  eexists. split; [reflexivity|]. simpl.
  induction e as [|x e IH]; simpl; constructor; [|exact IH].
  unfold Qdiv. change (/ inject_Z (Z.of_nat 1))%Q with 1%Q. ring.
Qed.

Lemma np_mean_pair (a b : LoadStudents.encoding) :
  length a = length b →
  ∃ v, LoadStudents.np_mean [a; b] = inr v
       ∧ LoadStudents.vec_eq v (zip_with (λ x y, ((x + y) / 2)%Q) a b).
Proof.
  intros Hlen. unfold LoadStudents.np_mean. simpl.
  rewrite <- Hlen, Nat.eqb_refl. simpl. eexists. split; [reflexivity|].
  clear Hlen. revert b. induction a as [|x a IH]; intros [|y b]; simpl;
    try constructor.
  - apply Qeq_refl.
  - apply IH.
Qed.

(** X15: in a build that returns, a label with a single loaded image stores
    that image's encoding, and a label with two loaded images of the same
    dimension stores the component-wise half-sum of their encodings. *)
Theorem stored_vector_one_or_two (directory : list LoadStudents.entry)
    (g : LoadStudents.dataset) (name : string) :
  LoadStudents.run directory = inr g →
  (∀ a, LoadStudents.encodings_of name directory = [a] →
        ∃ v, LoadStudents.stored_vector g name = Some v
             ∧ LoadStudents.vec_eq v a)
  ∧ (∀ a b, LoadStudents.encodings_of name directory = [a; b] →
            length a = length b →
            ∃ v, LoadStudents.stored_vector g name = Some v
                 ∧ LoadStudents.vec_eq v
                     (zip_with (λ x y, ((x + y) / 2)%Q) a b)).
Proof.
  intros Hr. pose proof (run_stored_vector _ _ name Hr) as H. split.
  - intros a E. rewrite E in H. destruct H as (m & Hm & ->).
    destruct (np_mean_single a) as (v & Hv & Heq).
    exists m. split; [done|]. congruence.
  - intros a b E Hlen. rewrite E in H. destruct H as (m & Hm & ->).
    destruct (np_mean_pair a b Hlen) as (v & Hv & Heq).
    exists m. split; [done|]. congruence.
Qed.

Lemma stored_vector_one_or_two_witness :
  ∃ g,
    LoadStudents.run
      [("A_1.jpg", Some [1%Q; 2%Q]); ("A_2.jpg", Some [3%Q; 5%Q])] = inr g
    ∧ ∃ v, LoadStudents.stored_vector g "A" = Some v
           ∧ LoadStudents.vec_eq v
               (zip_with (λ x y, ((x + y) / 2)%Q) [1%Q; 2%Q] [3%Q; 5%Q]).
Proof.
  eexists. split; [vm_compute; reflexivity|].
  refine (proj2 (stored_vector_one_or_two
    [("A_1.jpg", Some [1%Q; 2%Q]); ("A_2.jpg", Some [3%Q; 5%Q])] _ "A" _)
    [1%Q; 2%Q] [3%Q; 5%Q] _ _).
  - vm_compute. reflexivity.
  - reflexivity.
  - reflexivity.
Defined.

(** ** Matcher: a whole frame *)

Lemma recognize_cases (distance : Matcher.encoding → Matcher.encoding → Q)
    (known : list Matcher.encoding) (names : list string) (threshold : Q)
    (face : Matcher.encoding) :
  length names = length known →
  Matcher.recognize distance known names threshold face = inr ("Unknown", false)
  ∨ ∃ name, name ∈ names
            ∧ Matcher.recognize distance known names threshold face
              = inr (name, true).
Proof.
  intros Hlen. destruct known as [|k known].
  - by left.
  - destruct (face_distance_first_min distance (k :: known) face)
      as (i & d & Hfm & Hi); [done|].
    destruct (lookup_lt_is_Some_2 names i) as [name Hname]; [lia|].
    rewrite (recognize_first_min _ _ _ _ _ _ _ Hfm).
    destruct (Qltb d threshold); [|by left].
    right. exists name. split; [by eapply list_elem_of_lookup_2|].
    unfold getitem. by rewrite Hname.
Qed.

Lemma process_faces_total (distance : Matcher.encoding → Matcher.encoding → Q)
    (known : list Matcher.encoding) (names : list string) (threshold : Q)
    (faces : list Matcher.encoding) (recognized emitted : list string) :
  length names = length known →
  ∃ new_names new_emitted,
    Matcher.process_faces distance known names threshold faces recognized emitted
    = (emitted ++ new_emitted, inr (recognized ++ new_names))
    ∧ length new_names = length faces
    ∧ new_emitted = filter (λ n, n ∈ names) new_emitted
    ∧ new_emitted `sublist_of` new_names
    ∧ Forall (λ n, n = "Unknown" ∨ n ∈ names) new_names.
Proof.
  intros Hlen. revert recognized emitted.
  induction faces as [|face faces IH]; intros recognized emitted; simpl.
  - exists [], []. rewrite !app_nil_r. repeat split; constructor.
  - destruct (recognize_cases distance known names threshold face Hlen)
      as [->|(name & Hin & ->)].
    + destruct (IH (recognized ++ ["Unknown"]) emitted)
        as (nn & ne & -> & Hl & Hf & Hs & Ha).
      exists ("Unknown" :: nn), ne. rewrite <- app_assoc. simpl.
      split; [done|]. split; [by rewrite Hl|]. split; [done|].
      split; [by apply sublist_cons|]. constructor; [by left|done].
    + destruct (IH (recognized ++ [name]) (emitted ++ [name]))
        as (nn & ne & -> & Hl & Hf & Hs & Ha).
      exists (name :: nn), (name :: ne). rewrite <- !app_assoc. simpl.
      split; [done|]. split; [by rewrite Hl|].
      split; [rewrite filter_cons_True by done; by rewrite <- Hf|].
      split; [by apply sublist_skip|]. constructor; [by right|done].
Qed.

(** X16: with as many names as known encodings, the loop over the faces of
    a frame never raises: it yields one name per face, each either
    "Unknown" or a known name, and the attendance signals it emits are
    known names, in the order of the faces, one for each face that was
    matched at most. *)
Theorem process_faces_spec (distance : Matcher.encoding → Matcher.encoding → Q)
    (known : list Matcher.encoding) (names : list string) (threshold : Q)
    (faces : list Matcher.encoding) :
  length names = length known →
  ∃ recognized emitted,
    Matcher.process_faces distance known names threshold faces [] []
    = (emitted, inr recognized)
    ∧ length recognized = length faces
    ∧ Forall (λ n, n ∈ names) emitted
    ∧ emitted `sublist_of` recognized
    ∧ Forall (λ n, n = "Unknown" ∨ n ∈ names) recognized.
Proof.
  intros Hlen.
  destruct (process_faces_total distance known names threshold faces [] [] Hlen)
    as (nn & ne & E & Hl & Hf & Hs & Ha).
  exists nn, ne. split; [exact E|]. split; [done|].
  split; [|done]. rewrite Hf. apply Forall_forall. intros x Hx.
  by apply list_elem_of_filter in Hx as [? _].
Qed.

Lemma process_faces_spec_witness :
  ∃ recognized emitted,
    Matcher.process_faces Matcher.euclidean [[0%Q]; [1%Q]] ["A"; "B"] (1 # 2)%Q
      [[1 # 4]%Q; [1 # 2]%Q; [1%Q]] [] []
    = (emitted, inr recognized)
    ∧ length recognized = length [[1 # 4]%Q; [1 # 2]%Q; [1%Q]]
    ∧ Forall (λ n, n ∈ ["A"; "B"]) emitted
    ∧ emitted `sublist_of` recognized
    ∧ Forall (λ n, n = "Unknown" ∨ n ∈ ["A"; "B"]) recognized.
Proof.
  apply (process_faces_spec Matcher.euclidean [[0%Q]; [1%Q]] ["A"; "B"] (1 # 2)%Q
           [[1 # 4]%Q; [1 # 2]%Q; [1%Q]]).
  reflexivity.
Defined.

(** X17: the gallery of a build that returns can be handed to the matcher
    as it is: for every metric, threshold and list of faces the loop over
    the faces returns, with one name per face. *)
Theorem built_gallery_never_raises
    (distance : Matcher.encoding → Matcher.encoding → Q)
    (directory : list LoadStudents.entry) (g : LoadStudents.dataset)
    (threshold : Q) (faces : list Matcher.encoding) :
  LoadStudents.run directory = inr g →
  ∃ recognized emitted,
    Matcher.process_faces distance (LoadStudents.known_face_encodings g)
      (LoadStudents.known_face_names g) threshold faces [] []
    = (emitted, inr recognized)
    ∧ length recognized = length faces
    ∧ Forall (λ n, ∃ f, f ∈ directory ∧ LoadStudents.loaded f = true
                        ∧ LoadStudents.student_name f.1 = n) emitted.
Proof.
  intros Hr. pose proof (run_inr _ _ Hr) as (Hn & HF & _).
  assert (Hlen : length (LoadStudents.known_face_names g)
                 = length (LoadStudents.known_face_encodings g)).
  { apply Forall2_length in HF. rewrite Hn. unfold PyDict.keys.
    by rewrite length_map. }
  destruct (process_faces_total distance _ _ threshold faces [] [] Hlen)
    as (nn & ne & E & Hl & Hf & Hs & Ha).
  exists nn, ne. split; [exact E|]. split; [done|].
  rewrite Hf. apply Forall_forall. intros x Hx.
  apply list_elem_of_filter in Hx as [Hx _].
  by apply (run_known_name _ _ _ Hr).
Qed.

Lemma built_gallery_never_raises_witness :
  ∃ g,
    LoadStudents.run
      [("A_1.jpg", Some [0%Q]); ("B_1.jpg", Some [1%Q])] = inr g
    ∧ ∃ recognized emitted,
        Matcher.process_faces Matcher.euclidean
          (LoadStudents.known_face_encodings g)
          (LoadStudents.known_face_names g) (1 # 2)%Q [[1 # 4]%Q] [] []
        = (emitted, inr recognized)
        ∧ length recognized = length [[1 # 4]%Q]
        ∧ Forall (λ n, ∃ f, f ∈ [("A_1.jpg", Some [0%Q]); ("B_1.jpg", Some [1%Q])]
                            ∧ LoadStudents.loaded f = true
                            ∧ LoadStudents.student_name f.1 = n) emitted.
Proof.
  eexists. split; [vm_compute; reflexivity|].
  apply (built_gallery_never_raises Matcher.euclidean
           [("A_1.jpg", Some [0%Q]); ("B_1.jpg", Some [1%Q])]).
  vm_compute. reflexivity.
Defined.

(** X18: with a metric that is never negative and a threshold of zero or
    less, nobody is recognised: every face is "Unknown" and no attendance
    signal is emitted, even for a face at distance zero from a known one. *)
Theorem recognize_zero_threshold
    (distance : Matcher.encoding → Matcher.encoding → Q)
    (known : list Matcher.encoding) (names : list string) (threshold : Q)
    (face : Matcher.encoding) :
  (∀ a b, (0 <= distance a b)%Q) →
  (threshold <= 0)%Q →
  Matcher.recognize distance known names threshold face = inr ("Unknown", false).
Proof.
  intros Hnn Ht. destruct known as [|k known]; [done|].
  destruct (face_distance_first_min distance (k :: known) face)
    as (i & d & Hfm & Hi); [done|].
  rewrite (recognize_first_min _ _ _ _ _ _ _ Hfm).
  assert (Hd : (0 <= d)%Q).
  { destruct Hfm as (Hl & _). unfold Matcher.face_distance in Hl.
    rewrite list_lookup_fmap in Hl.
    destruct ((k :: known) !! i); simpl in Hl; [|done].
    inversion Hl. apply Hnn. }
  assert (Hge : Qltb d threshold = false).
  { apply Qltb_ge. by apply (Qle_trans _ 0%Q). }
  by rewrite Hge.
Qed.

Lemma euclidean_nonneg (a b : Matcher.encoding) : (0 <= Matcher.euclidean a b)%Q.
Proof.
  unfold Matcher.euclidean, Matcher.sqrt_exact, Qle. simpl.
  rewrite Z.mul_1_r. apply Z.sqrt_nonneg.
Qed.

Lemma recognize_zero_threshold_witness :
  Matcher.recognize Matcher.euclidean [[0%Q]] ["A"] 0%Q [0%Q]
  = inr ("Unknown", false).
Proof.
  apply (recognize_zero_threshold Matcher.euclidean [[0%Q]] ["A"] 0%Q [0%Q]).
  - apply euclidean_nonneg.
  - apply Qle_refl.
Defined.

(** ** The ledger: recording, clearing and counting *)

Lemma update_returns (self : AttendanceSystem.app) (name : string)
    (timestamp now now_save : Z) :
  ∃ self',
    AttendanceSystem.update_attendance_record self name timestamp now now_save
    = inr self'
    ∧ AttendanceSystem.known_face_names self'
      = AttendanceSystem.known_face_names self
    ∧ AttendanceSystem.duplicate_prevention self'
      = AttendanceSystem.duplicate_prevention self
    ∧ (AttendanceSystem.present_students self'
       = AttendanceSystem.present_students self
       ∨ AttendanceSystem.present_students self'
         = PyDict.set (AttendanceSystem.present_students self) name timestamp).
Proof.
  destruct (AttendanceSystem.should_record self name now) eqn:E.
  - destruct (update_recorded self name timestamp now now_save E) as (r & _ & ->).
    eexists. split; [done|]. simpl. split; [done|]. split; [done|]. by right.
  - rewrite (update_ignored _ _ _ _ _ E). exists self.
    split; [done|]. split; [done|]. split; [done|]. by left.
Qed.

(** X19: with duplicate prevention switched off every sighting is recorded:
    the stored timestamp of the person becomes the new one, the timestamps
    of the others stay, the set of present names gains at most this name,
    and the day's file is written once more. *)
Theorem update_without_duplicate_prevention (self : AttendanceSystem.app)
    (name : string) (timestamp now now_save : Z) :
  AttendanceSystem.duplicate_prevention self = false →
  ∃ self',
    AttendanceSystem.update_attendance_record self name timestamp now now_save
    = inr self'
    ∧ PyDict.get (AttendanceSystem.present_students self') name = Some timestamp
    ∧ (∀ other, name ≠ other →
         PyDict.get (AttendanceSystem.present_students self') other
         = PyDict.get (AttendanceSystem.present_students self) other)
    ∧ PyDict.keys (AttendanceSystem.present_students self')
      = (if PyDict.contains (AttendanceSystem.present_students self) name
         then PyDict.keys (AttendanceSystem.present_students self)
         else PyDict.keys (AttendanceSystem.present_students self) ++ [name])
    ∧ AttendanceManager.writes (AttendanceSystem.attendance_manager self')
      = Datetime.strftime_date now_save
        :: AttendanceManager.writes (AttendanceSystem.attendance_manager self).
Proof.
  intros Hoff.
  assert (E : AttendanceSystem.should_record self name now = true).
  { unfold AttendanceSystem.should_record. by rewrite Hoff. }
  destruct (update_recorded self name timestamp now now_save E) as (r & _ & ->).
  eexists. split; [done|]. simpl.
  split; [apply dict_get_set_eq|].
  split; [intros other Hne; by apply dict_get_set_ne|].
  split; [apply dict_keys_set|done].
Qed.

Lemma update_without_duplicate_prevention_witness :
  ∃ self',
    AttendanceSystem.update_attendance_record
      {| AttendanceSystem.present_students := [("Bob", 1000)];
         AttendanceSystem.known_face_names := ["Bob"];
         AttendanceSystem.duplicate_prevention := false;
         AttendanceSystem.attendance_manager :=
           {| AttendanceManager.files := ∅; AttendanceManager.writes := [] |} |}
      "Bob" 1001 1001000000 1001000000 = inr self'
    ∧ PyDict.get (AttendanceSystem.present_students self') "Bob" = Some 1001.
Proof.
  destruct (update_without_duplicate_prevention
    {| AttendanceSystem.present_students := [("Bob", 1000)];
       AttendanceSystem.known_face_names := ["Bob"];
       AttendanceSystem.duplicate_prevention := false;
       AttendanceSystem.attendance_manager :=
         {| AttendanceManager.files := ∅; AttendanceManager.writes := [] |} |}
    "Bob" 1001 1001000000 1001000000 eq_refl) as (s & E & Hg & _).
  exists s. split; [exact E|exact Hg].
Defined.

Lemma first_sighting_full_state_aux (self : AttendanceSystem.app)
    (name : string) (timestamp now now_save : Z) :
  PyDict.get (AttendanceSystem.present_students self) name = None →
  ∃ self' r,
    AttendanceSystem.update_attendance_record self name timestamp now now_save
    = inr self'
    ∧ AttendanceSystem.present_students self'
      = PyDict.set (AttendanceSystem.present_students self) name timestamp
    ∧ AttendanceManager.get_attendance
        (AttendanceSystem.attendance_manager self') now_save = Some r
    ∧ AttendanceManager.present_students r
      = PyDict.keys (AttendanceSystem.present_students self) ++ [name]
    ∧ AttendanceManager.all_students r = AttendanceSystem.known_face_names self.
Proof.
  intros Hnew.
  pose proof (should_record_absent self name now Hnew) as E.
  unfold AttendanceSystem.update_attendance_record. rewrite E.
  destruct (save_attendance_returns (AttendanceSystem.attendance_manager self)
              now_save
              (PyDict.keys (PyDict.set (AttendanceSystem.present_students self)
                              name timestamp))
              (AttendanceSystem.known_face_names self)) as (r & Hr & ->).
  rewrite build_attendance_data_returns in Hr. injection Hr as <-.
  eexists _, _. split; [done|]. simpl. split; [done|].
  split; [apply lookup_insert_eq|].
  simpl. rewrite dict_keys_set. unfold PyDict.contains.
  rewrite Hnew. done.
Qed.

(** X20: when a person who is not yet present is sighted, whatever the
    duplicate-prevention setting, the record written for the day of the
    save lists that person and everyone who was present before, including
    people recorded on earlier days (the present dictionary is not reset at
    midnight), and its all_students is the list of known names. *)
Theorem first_sighting_persists_full_state (self : AttendanceSystem.app)
    (name : string) (timestamp now now_save : Z) :
  PyDict.get (AttendanceSystem.present_students self) name = None →
  ∃ self' r,
    AttendanceSystem.update_attendance_record self name timestamp now now_save
    = inr self'
    ∧ AttendanceManager.get_attendance
        (AttendanceSystem.attendance_manager self') now_save = Some r
    ∧ AttendanceManager.present_students r
      = PyDict.keys (AttendanceSystem.present_students self) ++ [name]
    ∧ AttendanceManager.present_students r
      = PyDict.keys (AttendanceSystem.present_students self')
    ∧ AttendanceManager.all_students r = AttendanceSystem.known_face_names self
    ∧ AttendanceManager.date r = Datetime.strftime_date now_save.
Proof.
  intros Hnew.
  pose proof (should_record_absent self name now Hnew) as E.
  unfold AttendanceSystem.update_attendance_record. rewrite E.
  destruct (save_attendance_returns (AttendanceSystem.attendance_manager self)
              now_save
              (PyDict.keys (PyDict.set (AttendanceSystem.present_students self)
                              name timestamp))
              (AttendanceSystem.known_face_names self)) as (r & Hr & ->).
  rewrite build_attendance_data_returns in Hr. injection Hr as <-.
  eexists _, _. split; [done|]. simpl.
  split; [apply lookup_insert_eq|].
  simpl. rewrite dict_keys_set. unfold PyDict.contains.
  rewrite Hnew. done.
Qed.

Lemma first_sighting_persists_full_state_witness :
  ∃ self' r,
    AttendanceSystem.update_attendance_record
      {| AttendanceSystem.present_students := [("Bob", 1000)];
         AttendanceSystem.known_face_names := ["Bob"; "Ann"];
         AttendanceSystem.duplicate_prevention := true;
         AttendanceSystem.attendance_manager :=
           {| AttendanceManager.files := ∅; AttendanceManager.writes := [] |} |}
      "Ann" 90000 90000000000 90000000000 = inr self'
    ∧ AttendanceManager.get_attendance
        (AttendanceSystem.attendance_manager self') 90000000000 = Some r
    ∧ AttendanceManager.present_students r = ["Bob"; "Ann"].
Proof.
  destruct (first_sighting_persists_full_state
    {| AttendanceSystem.present_students := [("Bob", 1000)];
       AttendanceSystem.known_face_names := ["Bob"; "Ann"];
       AttendanceSystem.duplicate_prevention := true;
       AttendanceSystem.attendance_manager :=
         {| AttendanceManager.files := ∅; AttendanceManager.writes := [] |} |}
    "Ann" 90000 90000000000 90000000000 eq_refl) as (s & r & E & Hg & Hp & _).
  exists s, r. split; [exact E|]. split; [exact Hg|exact Hp].
Defined.

Lemma dict_keys_set_prefix {V : Type} (d : PyDict.dict V) (k : string) (v : V) :
  PyDict.keys d `prefix_of` PyDict.keys (PyDict.set d k v).
Proof.
  rewrite dict_keys_set. destruct (PyDict.contains d k); [done|].
  by apply prefix_app_r.
Qed.

Lemma handle_no_clear_prefix (self : AttendanceSystem.app)
    (ev : AttendanceSystem.event) :
  AttendanceSystem.is_clear ev = false →
  ∃ self', AttendanceSystem.handle self ev = inr self'
           ∧ PyDict.keys (AttendanceSystem.present_students self)
             `prefix_of` PyDict.keys (AttendanceSystem.present_students self').
Proof.
  destruct ev as [name ts now ns|checked|names|now]; simpl; intros Hc.
  - destruct (update_returns self name ts now ns) as (s & -> & _ & _ & [Hp|Hp]);
      exists s; (split; [done|]); rewrite Hp; [done|].
    apply dict_keys_set_prefix.
  - by eexists.
  - by eexists.
  - done.
Qed.

(** X21: as long as the attendance is not cleared, the present set only
    grows: after any sequence of recognitions, setting changes and dataset
    loads the names present before are still present, in the same order,
    followed by the names added since. *)
Theorem present_grows_until_cleared (self : AttendanceSystem.app)
    (events : list AttendanceSystem.event) :
  Forall (λ ev, AttendanceSystem.is_clear ev = false) events →
  ∃ self',
    AttendanceSystem.run self events = inr self'
    ∧ PyDict.keys (AttendanceSystem.present_students self)
      `prefix_of` PyDict.keys (AttendanceSystem.present_students self').
Proof.
  intros H. revert self. induction H as [|ev events Hev _ IH]; intros self; simpl.
  - by exists self.
  - destruct (handle_no_clear_prefix self ev Hev) as (s1 & -> & Hp1). simpl.
    destruct (IH s1) as (s2 & -> & Hp2). exists s2. split; [done|].
    by etrans.
Qed.

Lemma present_grows_until_cleared_witness :
  ∃ self',
    AttendanceSystem.run (AttendanceSystem.init ∅)
      [AttendanceSystem.Recognized "Bob" 100 100000000 100000001;
       AttendanceSystem.LoadDataset ["Ann"];
       AttendanceSystem.Recognized "Ann" 102 102000000 102000001] = inr self'
    ∧ PyDict.keys (AttendanceSystem.present_students (AttendanceSystem.init ∅))
      `prefix_of` PyDict.keys (AttendanceSystem.present_students self').
Proof.
  apply (present_grows_until_cleared (AttendanceSystem.init ∅)
    [AttendanceSystem.Recognized "Bob" 100 100000000 100000001;
     AttendanceSystem.LoadDataset ["Ann"];
     AttendanceSystem.Recognized "Ann" 102 102000000 102000001]).
  repeat constructor.
Defined.

(** X22: clearing resets the duplicate check: after a clear, the next
    sighting of anyone is recorded, however recently that person was seen
    before, and the state then holds that one person, in memory and in the
    record written for the day of the save. *)
Theorem sighting_after_clear (self : AttendanceSystem.app) (name : string)
    (timestamp now_clear now now_save : Z) :
  ∃ self' r,
    AttendanceSystem.run self
      [AttendanceSystem.ClearAttendance now_clear;
       AttendanceSystem.Recognized name timestamp now now_save] = inr self'
    ∧ AttendanceSystem.present_students self' = [(name, timestamp)]
    ∧ AttendanceManager.get_attendance
        (AttendanceSystem.attendance_manager self') now_save = Some r
    ∧ AttendanceManager.present_students r = [name]
    ∧ AttendanceManager.all_students r = AttendanceSystem.known_face_names self.
Proof.
  simpl.
  destruct (first_sighting_full_state_aux
              (AttendanceSystem.clear_attendance self now_clear)
              name timestamp now now_save eq_refl) as (s & r & -> & Hp & Hg & Hr & Ha).
  exists s, r. simpl. done.
Qed.

(** X23: when the present dictionary has one entry per name and every
    present name is a known name, the absent count shown by
    [update_statistics] is the number of known names that are not present,
    and is not negative; the total is the number of distinct known names. *)
Theorem update_statistics_absent (self : AttendanceSystem.app) :
  NoDup (PyDict.keys (AttendanceSystem.present_students self)) →
  PyDict.keys (AttendanceSystem.present_students self)
    ⊆ AttendanceSystem.known_face_names self →
  AttendanceSystem.total_students (AttendanceSystem.update_statistics self)
  = Z.of_nat (LoadStudents.student_count (AttendanceSystem.known_face_names self))
  ∧ AttendanceSystem.present_count (AttendanceSystem.update_statistics self)
    = Z.of_nat (length (PyDict.keys (AttendanceSystem.present_students self)))
  ∧ AttendanceSystem.absent_count (AttendanceSystem.update_statistics self)
    = Z.of_nat
        (size ((list_to_set (AttendanceSystem.known_face_names self) : gset string)
               ∖ list_to_set (PyDict.keys (AttendanceSystem.present_students self))))
  ∧ (0 <= AttendanceSystem.absent_count (AttendanceSystem.update_statistics self))%Z.
Proof.
  intros Hnd Hsub.
  assert (Ht : AttendanceSystem.total_students (AttendanceSystem.update_statistics self)
               = Z.of_nat (LoadStudents.student_count
                             (AttendanceSystem.known_face_names self))).
  { unfold AttendanceSystem.update_statistics, LoadStudents.student_count. simpl.
    by destruct (AttendanceSystem.known_face_names self). }
  assert (Hp : AttendanceSystem.present_count (AttendanceSystem.update_statistics self)
               = Z.of_nat (length (PyDict.keys
                                     (AttendanceSystem.present_students self)))).
  { unfold AttendanceSystem.update_statistics, PyDict.keys. simpl.
    by rewrite length_map. }
  assert (Hs : (list_to_set (PyDict.keys (AttendanceSystem.present_students self))
                 : gset string)
               ⊆ list_to_set (AttendanceSystem.known_face_names self)).
  { intros x. rewrite !elem_of_list_to_set. apply Hsub. }
  assert (Ha : AttendanceSystem.absent_count (AttendanceSystem.update_statistics self)
               = (AttendanceSystem.total_students
                    (AttendanceSystem.update_statistics self)
                  - AttendanceSystem.present_count
                      (AttendanceSystem.update_statistics self))%Z) by done.
  pose proof (subseteq_size _ _ Hs) as Hle.
  rewrite (size_list_to_set (PyDict.keys _)) in Hle by done.
  split; [done|]. split; [done|].
  rewrite Ha, Ht, Hp, size_difference by done.
  rewrite (size_list_to_set (PyDict.keys _)) by done.
  unfold LoadStudents.student_count in *. lia.
Qed.

Lemma update_statistics_absent_witness :
  AttendanceSystem.absent_count
    (AttendanceSystem.update_statistics
       {| AttendanceSystem.present_students := [("Bob", 1000)];
          AttendanceSystem.known_face_names := ["Bob"; "Ann"];
          AttendanceSystem.duplicate_prevention := true;
          AttendanceSystem.attendance_manager :=
            {| AttendanceManager.files := ∅; AttendanceManager.writes := [] |} |})
  = Z.of_nat
      (size ((list_to_set ["Bob"; "Ann"] : gset string) ∖ list_to_set ["Bob"])).
Proof.
  refine (proj1 (proj2 (proj2 (update_statistics_absent
    {| AttendanceSystem.present_students := [("Bob", 1000)];
       AttendanceSystem.known_face_names := ["Bob"; "Ann"];
       AttendanceSystem.duplicate_prevention := true;
       AttendanceSystem.attendance_manager :=
         {| AttendanceManager.files := ∅; AttendanceManager.writes := [] |} |}
    _ _)))).
  - apply NoDup_singleton.
  - intros x Hx. apply list_elem_of_singleton in Hx. subst.
    apply elem_of_cons. by left.
Defined.

(** ** Email settings *)

Lemma config_ne_backup : EmailSettings.config_file ≠ EmailSettings.backup_file.
Proof. discriminate. Qed.

(** X24: a save of the email settings that is refused by the address check
    touches no file.  A save that runs to its end leaves the configuration
    file with the whole new content, the backup file with the previous
    configuration when there was one (and as it was otherwise), and every
    other file as it was. *)
Theorem save_email_settings_completed (fs : Persistence.filesystem)
    (json : list string) :
  EmailSettings.save_email_settings fs false json None = fs
  ∧ EmailSettings.save_email_settings fs true json None
      !! EmailSettings.config_file = Some (Persistence.contents json)
  ∧ EmailSettings.save_email_settings fs true json None
      !! EmailSettings.backup_file
    = match fs !! EmailSettings.config_file with
      | Some old => Some old
      | None => fs !! EmailSettings.backup_file
      end
  ∧ ∀ path, path ≠ EmailSettings.config_file →
            path ≠ EmailSettings.backup_file →
            EmailSettings.save_email_settings fs true json None !! path
            = fs !! path.
Proof.
  pose proof config_ne_backup as Hne.
  unfold EmailSettings.save_email_settings, EmailSettings.copy2_if_exists.
  split; [done|]. rewrite run_dump.
  split; [apply lookup_insert_eq|]. split.
  - rewrite lookup_insert_ne by done.
    destruct (fs !! EmailSettings.config_file); [apply lookup_insert_eq|done].
  - intros path Hc Hb. rewrite lookup_insert_ne by done.
    destruct (fs !! EmailSettings.config_file); [|done].
    by rewrite lookup_insert_ne.
Qed.

Lemma run_take_dump (fs : Persistence.filesystem) (path : string)
    (chunks : list string) (n : nat) :
  Persistence.run_ops fs (take n (Persistence.dump path chunks))
  = match n with
    | O => fs
    | S k => <[path := Persistence.contents (take k chunks)]> fs
    end.
Proof.
  destruct n as [|k]; [done|]. by rewrite take_dump, run_dump.
Qed.

(** X25: when a configuration file exists and writing the new one raises,
    after any number of steps, the [except] clause puts the previous
    configuration back: the configuration file and the backup both hold the
    old content.  With no configuration file and no backup beforehand,
    nothing is put back: once the file has been opened it is left holding a
    prefix of the new content. *)
Theorem save_email_settings_failure (fs : Persistence.filesystem)
    (json : list string) (n : nat) :
  (∀ old, fs !! EmailSettings.config_file = Some old →
     EmailSettings.save_email_settings fs true json (Some n)
       !! EmailSettings.config_file = Some old
     ∧ EmailSettings.save_email_settings fs true json (Some n)
         !! EmailSettings.backup_file = Some old)
  ∧ (fs !! EmailSettings.config_file = None →
     fs !! EmailSettings.backup_file = None →
     EmailSettings.save_email_settings fs true json (Some (S n))
       !! EmailSettings.config_file
     = Some (Persistence.contents (take n json))
     ∧ String.prefix (Persistence.contents (take n json))
         (Persistence.contents json) = true).
Proof.
  pose proof config_ne_backup as Hne.
  unfold EmailSettings.save_email_settings, EmailSettings.copy2_if_exists.
  split.
  - intros old Hold. rewrite Hold, run_take_dump.
    assert (Hb : ∀ fs' : Persistence.filesystem,
              fs' !! EmailSettings.backup_file = Some old →
              <[EmailSettings.config_file := old]> fs' !! EmailSettings.config_file
              = Some old
              ∧ <[EmailSettings.config_file := old]> fs' !! EmailSettings.backup_file
                = Some old).
    { intros fs' H. split; [apply lookup_insert_eq|].
      by rewrite lookup_insert_ne. }
    destruct n as [|k].
    + rewrite lookup_insert_eq. apply Hb, lookup_insert_eq.
    + rewrite lookup_insert_ne by done. rewrite lookup_insert_eq.
      apply Hb. rewrite lookup_insert_ne by done. apply lookup_insert_eq.
  - intros Hc Hb. rewrite Hc, run_take_dump.
    rewrite lookup_insert_ne, Hb by done.
    split; [apply lookup_insert_eq|apply prefix_contents_take].
Qed.
